(** * video_compiler.py: one clip per day, in chronological order

    A shallow embedding of [src/video_compiler.py] and the properties of
    its pipeline.  Python values are modelled as follows.

    - [str] is [string]; only 8-bit characters are modelled, on which the
      regular-expression class [\d] is exactly [0-9].
    - A call that may raise returns a [result]; the exception classes the
      script can meet are the constructors of [exn].
    - [float] is IEEE binary64, as [spec_float] of the Standard Library.
    - [datetime] values produced by [strptime] with the format
      [%Y-%m-%d] have all time fields zero, so a record of year, month and
      day represents them, compared chronologically.
    - The [defaultdict] and [dict] of the script keep insertion order; they
      are association lists whose keys are pairwise distinct.
    - External tools ([ffmpeg], [ffprobe]), the directory listing, the
      random source and the file system are a [world] of oracles; what a
      run asks of them is recorded in a trace of events.
    - The messages printed are left out; the exits of [main] are told
      apart by a [status].  The temporary directory of a run appears only
      through the paths of the clips. *)

From Stdlib Require Import ZArith String Ascii List Bool Lia SpecFloat.
From stdpp Require Import base option list strings gmap sorting.

Local Open Scope Z_scope.

(** ** Exceptions and results *)

Inductive exn : Type :=
| CalledProcessError
| FileNotFoundError
| OSError
| KeyError
| ValueError
| JSONDecodeError
| UnicodeEncodeError
| TypeError
| AttributeError
| UnboundLocalError
| OverflowError.

Inductive result (A : Type) : Type :=
| Ok (a : A)
| Raise (e : exn).
Arguments Ok {A} a.
Arguments Raise {A} e.

(** Sequencing: the first exception raised ends the computation. *)
Global Instance result_ret : MRet result := fun A a => Ok a.
Global Instance result_bind : MBind result := fun A B k r =>
  match r with
  | Ok a => k a
  | Raise e => Raise e
  end.

(** [isinstance e cls] for the classes named in the script's [except]
    clauses: [JSONDecodeError] and [UnicodeEncodeError] derive from
    [ValueError], [FileNotFoundError] from [OSError]. *)
Definition exn_eqb (a b : exn) : bool :=
  match a, b with
  | CalledProcessError, CalledProcessError
  | FileNotFoundError, FileNotFoundError
  | OSError, OSError
  | KeyError, KeyError
  | ValueError, ValueError
  | JSONDecodeError, JSONDecodeError
  | UnicodeEncodeError, UnicodeEncodeError
  | TypeError, TypeError
  | AttributeError, AttributeError
  | UnboundLocalError, UnboundLocalError
  | OverflowError, OverflowError => true
  | _, _ => false
  end.

Definition isinstance (e cls : exn) : bool :=
  exn_eqb e cls ||
  match e, cls with
  | JSONDecodeError, ValueError => true
  | UnicodeEncodeError, ValueError => true
  | FileNotFoundError, OSError => true
  | _, _ => false
  end.

Definition caught_by (classes : list exn) (e : exn) : bool :=
  existsb (isinstance e) classes.

(** ** Characters and strings *)

Definition code (c : ascii) : Z := Z.of_N (N_of_ascii c).

Definition is_digit (c : ascii) : bool := (48 <=? code c) && (code c <=? 57).

Definition digit_value (c : ascii) : Z := code c - 48.

Definition newline : ascii := ascii_of_nat 10.

Definition is_newline (c : ascii) : bool := code c =? 10.

Definition ascii_eqb (a b : ascii) : bool := code a =? code b.

(** [str.lower] on one 8-bit character: [A-Z] and the Latin-1 capitals. *)
Definition lower_char (c : ascii) : ascii :=
  let n := code c in
  if ((65 <=? n) && (n <=? 90)) || ((192 <=? n) && (n <=? 222) && negb (n =? 215))
  then ascii_of_N (Z.to_N (n + 32))
  else c.

Fixpoint lower (s : string) : string :=
  match s with
  | EmptyString => EmptyString
  | String c s' => String (lower_char c) (lower s')
  end.

(** ** Calendar dates *)

Record datetime : Type := mkdate { year : Z; month : Z; day : Z }.

Definition is_leap (y : Z) : bool :=
  (y mod 4 =? 0) && (negb (y mod 100 =? 0) || (y mod 400 =? 0)).

Definition days_in_month (y m : Z) : Z :=
  if m =? 2 then (if is_leap y then 29 else 28)
  else if (m =? 4) || (m =? 6) || (m =? 9) || (m =? 11) then 30
  else 31.

(** The check made by the [datetime] constructor. *)
Definition valid_date (y m d : Z) : bool :=
  (1 <=? y) && (y <=? 9999) && (1 <=? m) && (m <=? 12) &&
  (1 <=? d) && (d <=? days_in_month y m).

Definition date_compare (a b : datetime) : comparison :=
  match year a ?= year b with
  | Eq => match month a ?= month b with
          | Eq => day a ?= day b
          | c => c
          end
  | c => c
  end.

Definition date_lt (a b : datetime) : Prop := date_compare a b = Lt.
Definition date_le (a b : datetime) : Prop := date_compare a b <> Gt.

(** ** The regular expression of [parse_date_from_filename]

    [re.match(r'(\d{4}-\d{2}-\d{2})_.*\.mp4$', filename)]: anchored at the
    start; [.] is any character but a newline; [$] holds at the end of the
    string and just before a newline that ends the string. *)

Fixpoint re_digits (n : nat) (s : string) : option (string * string) :=
  match n with
  | O => Some (EmptyString, s)
  | S n' =>
      match s with
      | String c s' =>
          if is_digit c then
            match re_digits n' s' with
            | Some (g, r) => Some (String c g, r)
            | None => None
            end
          else None
      | EmptyString => None
      end
  end.

Definition re_char (c : ascii) (s : string) : option string :=
  match s with
  | String c' s' => if ascii_eqb c c' then Some s' else None
  | EmptyString => None
  end.

Definition re_end (s : string) : bool :=
  match s with
  | EmptyString => true
  | String c EmptyString => is_newline c
  | _ => false
  end.

(** [\.mp4$] *)
Definition re_mp4_end (s : string) : bool :=
  match s with
  | String c1 (String c2 (String c3 (String c4 r))) =>
      ascii_eqb c1 "." && ascii_eqb c2 "m" && ascii_eqb c3 "p" &&
      ascii_eqb c4 "4" && re_end r
  | _ => false
  end.

(** [.*] followed by the continuation [k]: some split succeeds. *)
Fixpoint re_dot_star (k : string -> bool) (s : string) : bool :=
  match s with
  | EmptyString => k s
  | String c s' => (negb (is_newline c) && re_dot_star k s') || k s
  end.

(** The match object, reduced to its [group(1)]. *)
Definition re_match_filename (filename : string) : option string :=
  match re_digits 4 filename with
  | None => None
  | Some (y, r1) =>
  match re_char "-" r1 with
  | None => None
  | Some r2 =>
  match re_digits 2 r2 with
  | None => None
  | Some (m, r3) =>
  match re_char "-" r3 with
  | None => None
  | Some r4 =>
  match re_digits 2 r4 with
  | None => None
  | Some (d, r5) =>
  match re_char "_" r5 with
  | None => None
  | Some r6 =>
      if re_dot_star re_mp4_end r6
      then Some (y +:+ String "-" (m +:+ String "-" d))
      else None
  end end end end end end.

(** ** [datetime.strptime(s, '%Y-%m-%d')]

    The format compiles to
    [(\d\d\d\d)-(1[0-2]|0[1-9]|[1-9])-(3[0-1]|[1-2]\d|0[1-9]|[1-9]| [1-9])];
    a failed match, text left over and a date the constructor refuses all
    raise [ValueError]. *)

Definition orelse {A} (x y : option A) : option A :=
  match x with
  | Some _ => x
  | None => y
  end.

Fixpoint number_of (acc : Z) (s : string) : Z :=
  match s with
  | EmptyString => acc
  | String c s' => number_of (10 * acc + digit_value c) s'
  end.

Definition in_range (lo hi : Z) (c : ascii) : bool :=
  (lo <=? code c) && (code c <=? hi).

(** Two characters classified by [p1] and [p2], then the continuation. *)
Definition two_chars {A} (p1 p2 : ascii -> bool) (k : Z -> string -> option A)
    (s : string) : option A :=
  match s with
  | String c1 (String c2 r) =>
      if p1 c1 && p2 c2
      then k (number_of 0 (String c1 (String c2 EmptyString))) r
      else None
  | _ => None
  end.

Definition one_char {A} (p : ascii -> bool) (k : Z -> string -> option A)
    (s : string) : option A :=
  match s with
  | String c r => if p c then k (digit_value c) r else None
  | EmptyString => None
  end.

Definition is_char (c : ascii) : ascii -> bool := fun c' => ascii_eqb c c'.

Definition fmt_m {A} (k : Z -> string -> option A) (s : string) : option A :=
  orelse (two_chars (is_char "1") (in_range 48 50) k s)
 (orelse (two_chars (is_char "0") (in_range 49 57) k s)
         (one_char (in_range 49 57) k s)).

Definition fmt_d {A} (k : Z -> string -> option A) (s : string) : option A :=
  orelse (two_chars (is_char "3") (in_range 48 49) k s)
 (orelse (two_chars (in_range 49 50) is_digit k s)
 (orelse (two_chars (is_char "0") (in_range 49 57) k s)
 (orelse (one_char (in_range 49 57) k s)
         (match s with
          | String c r =>
              if is_char " " c then one_char (in_range 49 57) k r else None
          | EmptyString => None
          end)))).

Definition fmt_Ymd (s : string) : option (Z * Z * Z * string) :=
  match re_digits 4 s with
  | None => None
  | Some (y, r1) =>
      match re_char "-" r1 with
      | None => None
      | Some r2 =>
          fmt_m (fun m r3 =>
            match re_char "-" r3 with
            | None => None
            | Some r4 => fmt_d (fun d r5 => Some (number_of 0 y, m, d, r5)) r4
            end) r2
      end
  end.

Definition strptime (s : string) : result datetime :=
  match fmt_Ymd s with
  | None => Raise ValueError
  | Some (y, m, d, rest) =>
      match rest with
      | String _ _ => Raise ValueError
      | EmptyString =>
          if valid_date y m d then Ok (mkdate y m d) else Raise ValueError
      end
  end.

(** ** [parse_date_from_filename] *)

Definition parse_date_from_filename (filename : string)
    : result (option datetime) :=
  match re_match_filename filename with
  | Some g1 => d ← strptime g1; Ok (Some d)
  | None => Ok None
  end.

Definition nl : string := String newline EmptyString.

(** ** [pathlib]: the suffix of a file name

    [Path.suffix] is the part of the name from its last dot on, unless that
    dot is the first or the last character. *)

Fixpoint rfind_dot (s : string) : option nat :=
  match s with
  | EmptyString => None
  | String c s' =>
      match rfind_dot s' with
      | Some i => Some (S i)
      | None => if ascii_eqb "." c then Some O else None
      end
  end.

Definition suffix (name : string) : string :=
  match rfind_dot name with
  | Some i =>
      if (Nat.ltb 0 i && Nat.ltb i (String.length name - 1))%nat
      then String.substring i (String.length name - i) name
      else EmptyString
  | None => EmptyString
  end.

(** ** [get_video_files]

    A file of the directory is represented by its name; [listing] is the
    outcome of [video_dir.iterdir()]. *)

Definition is_video_file (name : string) : bool :=
  String.eqb (lower (suffix name)) ".mp4".

Definition get_video_files (listing : result (list string))
    : result (list string) :=
  fs ← listing; Ok (List.filter is_video_file fs).

(** ** [group_by_date] *)

Global Instance datetime_eq_dec : EqDecision datetime.
Proof. solve_decision. Defined.

Definition buckets : Type := list (datetime * list string).

(** [grouped[date].append(video_file)] on a [defaultdict(list)]. *)
Fixpoint dict_append (date : datetime) (f : string) (grouped : buckets)
    : buckets :=
  match grouped with
  | [] => [(date, [f])]
  | (d, fs) :: rest =>
      if decide (d = date) then (d, fs ++ [f]) :: rest
      else (d, fs) :: dict_append date f rest
  end.

Fixpoint group_loop (video_files : list string) (grouped : buckets)
    : result buckets :=
  match video_files with
  | [] => Ok grouped
  | video_file :: rest =>
      date ← parse_date_from_filename video_file;
      match date with
      | Some d => group_loop rest (dict_append d video_file grouped)
      | None => group_loop rest grouped
      end
  end.

Definition group_by_date (video_files : list string) : result buckets :=
  group_loop video_files [].

Definition keys {V} (d : list (datetime * V)) : list datetime := List.map fst d.

(** [f] is in the bucket of [date]. *)
Definition in_bucket (grouped : buckets) (date : datetime) (f : string) : Prop :=
  exists fs, (date, fs) ∈ grouped /\ f ∈ fs.

Fixpoint dict_get {V} (date : datetime) (d : list (datetime * V)) : option V :=
  match d with
  | [] => None
  | (k, v) :: rest => if decide (k = date) then Some v else dict_get date rest
  end.

(** ** [select_one_per_day]

    [rand k] is the [k]-th draw of the random source; [random.choice]
    indexes the sequence with a draw reduced below its length. *)

Definition random_choice (draw : nat) (videos : list string) : option string :=
  videos !! (draw mod length videos)%nat.

Fixpoint select_loop (rand : nat -> nat) (k : nat) (items : buckets)
    : list (datetime * string) :=
  match items with
  | [] => []
  | (date, videos) :: rest =>
      match random_choice (rand k) videos with
      | Some v => (date, v) :: select_loop rand (S k) rest
      | None => select_loop rand k rest
      end
  end.

Definition select_one_per_day (rand : nat -> nat) (grouped_videos : buckets)
    : list (datetime * string) :=
  select_loop rand O grouped_videos.

(** ** Floats

    Python's [float] is binary64; the literals of the script are given by
    their 53-bit significands. *)

Definition float : Type := spec_float.

(** [1.4 = 0x1.6666666666666p+0] *)
Definition f1_4 : float := S754_finite false 6305039478318694 (-52).
(** [1.6 = 0x1.999999999999ap+0] *)
Definition f1_6 : float := S754_finite false 7205759403792794 (-52).
(** [0.5 = 0x1p-1] *)
Definition f0_5 : float := S754_finite false 4503599627370496 (-53).
(** [10.0 = 0x1.4p+3] *)
Definition f10_0 : float := S754_finite false 5629499534213120 (-49).
(** [1.0 = 0x1p+0], for examples *)
Definition f1_0 : float := S754_finite false 4503599627370496 (-52).

Definition flt (a b : float) : bool := SFltb a b.

(** [min(a, b)]: [b] replaces [a] only if [b < a]. *)
Definition py_min (a b : float) : float := if flt b a then b else a.

(** ** JSON documents as Python values *)

Unset Elimination Schemes.
Inductive json : Type :=
| JNone
| JBool (b : bool)
| JInt (n : Z)
| JFloat (x : float)
| JStr (s : string)
| JList (l : list json)
| JDict (d : list (string * json)).
Set Elimination Schemes.

Fixpoint assoc {V} (k : string) (d : list (string * V)) : option V :=
  match d with
  | [] => None
  | (k', v) :: rest => if String.eqb k' k then Some v else assoc k rest
  end.

(** [v == s] for a string literal [s]. *)
Definition eq_str (v : json) (s : string) : bool :=
  match v with
  | JStr s' => String.eqb s' s
  | _ => false
  end.

Fixpoint is_prefix (p s : string) : bool :=
  match p, s with
  | EmptyString, _ => true
  | String a p', String b s' => ascii_eqb a b && is_prefix p' s'
  | String _ _, EmptyString => false
  end.

Fixpoint is_substring (p s : string) : bool :=
  is_prefix p s ||
  match s with
  | EmptyString => false
  | String _ s' => is_substring p s'
  end.

Fixpoint chars (s : string) : list json :=
  match s with
  | EmptyString => []
  | String c s' => JStr (String c EmptyString) :: chars s'
  end.

(** [d.get(key, default)]: only a [dict] has the method. *)
Definition py_get (v : json) (key : string) (dflt : json) : result json :=
  match v with
  | JDict d => Ok (from_option id dflt (assoc key d))
  | _ => Raise AttributeError
  end.

(** [v[key]] for a string key. *)
Definition py_getitem (v : json) (key : string) : result json :=
  match v with
  | JDict d =>
      match assoc key d with
      | Some x => Ok x
      | None => Raise KeyError
      end
  | _ => Raise TypeError
  end.

(** [key in v] for a string key. *)
Definition py_contains (v : json) (key : string) : result bool :=
  match v with
  | JDict d => Ok (bool_decide (is_Some (assoc key d)))
  | JList l => Ok (existsb (fun x => eq_str x key) l)
  | JStr s => Ok (is_substring key s)
  | _ => Raise TypeError
  end.

(** The elements a [for] loop over [v] visits. *)
Definition py_iter (v : json) : result (list json) :=
  match v with
  | JList l => Ok l
  | JDict d => Ok (List.map (fun kv => JStr (fst kv)) d)
  | JStr s => Ok (chars s)
  | _ => Raise TypeError
  end.

(** The outcome of [subprocess.run(cmd, capture_output=True, text=True,
    check=True)]: the captured standard output, or the exception raised
    ([CalledProcessError] on a non-zero exit status). *)
Definition completed : Type := result string.

Section Probes.

(** Library functions of Python: [json.loads] and the builtin [float]. *)
Variable json_loads : string -> result json.
Variable py_float : json -> result float.

(** *** [get_video_duration] *)

Definition duration_body (run : completed) : result float :=
  stdout ← run;
  data ← json_loads stdout;
  fmt ← py_getitem data "format";
  x ← py_getitem fmt "duration";
  py_float x.

Definition get_video_duration (run : completed) : result float :=
  match duration_body run with
  | Ok duration => Ok duration
  | Raise e =>
      if caught_by [CalledProcessError; KeyError; ValueError] e
      then Ok f10_0
      else Raise e
  end.

(** *** [validate_clip] *)

Fixpoint streams_loop (streams : list json) (has_video has_audio : bool)
    : result (bool * bool) :=
  match streams with
  | [] => Ok (has_video, has_audio)
  | stream :: rest =>
      codec_type ← py_get stream "codec_type" JNone;
      if eq_str codec_type "video" then streams_loop rest true has_audio
      else if eq_str codec_type "audio" then streams_loop rest has_video true
      else streams_loop rest has_video has_audio
  end.

Definition probed_duration (data : json) : result (option float) :=
  has_format ← py_contains data "format";
  if has_format : bool then
    fmt ← py_getitem data "format";
    has_duration ← py_contains fmt "duration";
    if has_duration : bool then
      x ← py_getitem fmt "duration";
      duration ← py_float x;
      Ok (Some duration)
    else Ok None
  else Ok None.

Definition classify (has_video has_audio : bool) (duration : option float)
    : bool :=
  if negb has_video then false
  else if negb has_audio then false
  else match duration with
       | None => false
       | Some d => if flt d f0_5 then false else true
       end.

(** The statements under [try], from [json.loads] on. *)
Definition validate_data (stdout : string) : result bool :=
  data ← json_loads stdout;
  streams ← py_get data "streams" (JList []);
  elements ← py_iter streams;
  flags ← streams_loop elements false false;
  duration ← probed_duration data;
  Ok (classify (fst flags) (snd flags) duration).

(** The body of [try]; the first component tells whether the local name
    [json] was bound ([import json] comes after [subprocess.run]). *)
Definition validate_body (run : completed) : bool * result bool :=
  match run with
  | Raise e => (false, Raise e)
  | Ok stdout => (true, validate_data stdout)
  end.

(** The [except] clause evaluates the tuple
    [(subprocess.CalledProcessError, KeyError, ValueError,
    json.JSONDecodeError)] before it matches the exception: with [json]
    unbound that evaluation raises [UnboundLocalError]. *)
Definition validate_clip (run : completed) : result bool :=
  match validate_body run with
  | (_, Ok valid) => Ok valid
  | (json_bound, Raise e) =>
      if json_bound then
        if caught_by [CalledProcessError; KeyError; ValueError; JSONDecodeError] e
        then Ok false
        else Raise e
      else Raise UnboundLocalError
  end.

End Probes.

(** ** The environment of a run *)

Record world : Type := {
  (** [subprocess.run(['ffmpeg', '-version'], ...)] and the same for
      [ffprobe] *)
  ffmpeg_version : completed;
  ffprobe_version : completed;
  (** the names in the directory [videos] *)
  iterdir : result (list string);
  (** the draws of [random] *)
  rand : nat -> nat;
  (** [ffprobe -show_format] on a source file *)
  ffprobe_format : string -> completed;
  (** [ffmpeg -i input -ss start -t duration ... output] *)
  ffmpeg_extract : string -> string -> float -> Z -> completed;
  (** [ffprobe -show_streams -show_format] on a clip *)
  ffprobe_streams : string -> completed;
  (** [tempfile.NamedTemporaryFile(mode='w', suffix='.txt', delete=False)]:
      the name of the file it creates *)
  named_temporary_file : result string;
  (** opening a file for writing and writing a text to it *)
  write_text : string -> string -> result unit;
  (** [ffmpeg -f concat -safe 0 -i manifest ... output] *)
  ffmpeg_concat : string -> string -> completed
}.

(** What a run does to the outside: the tools it starts and the calls of
    the Concatenator. *)
Inductive event : Type :=
| Ffmpeg_extract (input output : string) (duration : float) (start_time : Z)
| Call_concatenate (clip_paths : list string) (output_path : string)
| Ffmpeg_concat (manifest output_path : string).

(** The text files the script has created and not yet removed, and the
    events so far. *)
Record state : Type := {
  files : gmap string string;
  trace : list event
}.

Definition io (A : Type) : Type := state -> state * result A.

Global Instance io_ret : MRet io := fun A a s => (s, Ok a).
Global Instance io_bind : MBind io := fun A B k m s =>
  match m s with
  | (s', Ok a) => k a s'
  | (s', Raise e) => (s', Raise e)
  end.

Definition lift {A} (r : result A) : io A := fun s => (s, r).

Definition emit (e : event) : io unit :=
  fun s => ({| files := files s; trace := trace s ++ [e] |}, Ok tt).

Definition create_file (path text : string) : io unit :=
  fun s => ({| files := <[path := text]> (files s); trace := trace s |}, Ok tt).

(** [os.unlink]: the file must exist. *)
Definition unlink (path : string) : io unit :=
  fun s =>
    match files s !! path with
    | Some _ => ({| files := delete path (files s); trace := trace s |}, Ok tt)
    | None => (s, Raise FileNotFoundError)
    end.

(** [try: body finally: cleanup]: the cleanup runs on every outcome of the
    body; an exception of the cleanup replaces that outcome. *)
Definition try_finally {A} (body : io A) (cleanup : io unit) : io A :=
  fun s =>
    match body s with
    | (s1, r) =>
        match cleanup s1 with
        | (s2, Ok _) => (s2, r)
        | (s2, Raise e) => (s2, Raise e)
        end
    end.

(** [try: body except cls: handler] *)
Definition try_except {A} (body : io A) (classes : list exn) (handler : io A)
    : io A :=
  fun s =>
    match body s with
    | (s1, Ok a) => (s1, Ok a)
    | (s1, Raise e) => if caught_by classes e then handler s1 else (s1, Raise e)
    end.

Global Instance date_le_dec (a b : datetime) : Decision (date_le a b).
Proof. unfold date_le. solve_decision. Defined.

Fixpoint string_concat (l : list string) : string :=
  match l with
  | [] => EmptyString
  | s :: rest => s +:+ string_concat rest
  end.

(** The exits of [main] that are not exceptions, by the message printed. *)
Inductive status : Type :=
| Missing_tools      (* Error: ffmpeg and ffprobe are required ... *)
| No_video_files     (* No video files found! *)
| No_clips           (* No clips were successfully extracted! *)
| Compiled (total_clips : nat)  (* Video compilation completed successfully! *)
| Concat_failed.     (* Failed to concatenate videos *)

Definition output_file : string := "snap-one-second-videos.mp4".
Definition clip_duration : float := f1_4.

Section Pipeline.

Variable json_loads : string -> result json.
Variable py_float : json -> result float.
(** [str(temp_dir_path / f"clip_{i:04d}_{date.strftime('%Y%m%d')}.mp4")],
    in the temporary directory of the run *)
Variable clip_path : nat -> datetime -> string.
Variable w : world.

(** *** [extract_clip]: [duration=1.6], [start_time=0] *)

Definition extract_clip (input_path output_path : string)
    (duration : option float) (start_time : option Z) : io bool :=
  let duration := from_option id f1_6 duration in
  let start_time := from_option id 0 start_time in
  try_except
    (_ ← emit (Ffmpeg_extract input_path output_path duration start_time);
     _ ← lift (ffmpeg_extract w input_path output_path duration start_time);
     mret true)
    [CalledProcessError]
    (mret false).

(** *** [create_concat_file] and [concatenate_videos] *)

Definition manifest_text (clip_paths : list string) : string :=
  string_concat (List.map (fun p => "file '" +:+ p +:+ "'" +:+ nl) clip_paths).

Definition create_concat_file (clip_paths : list string)
    (concat_file_path : string) : io unit :=
  _ ← lift (write_text w concat_file_path (manifest_text clip_paths));
  create_file concat_file_path (manifest_text clip_paths).

Definition concatenate_videos (clip_paths : list string)
    (output_path : string) : io bool :=
  _ ← emit (Call_concatenate clip_paths output_path);
  concat_file_path ← lift (named_temporary_file w);
  _ ← create_file concat_file_path EmptyString;
  _ ← create_concat_file clip_paths concat_file_path;
  try_finally
    (try_except
       (_ ← emit (Ffmpeg_concat concat_file_path output_path);
        _ ← lift (ffmpeg_concat w concat_file_path output_path);
        mret true)
       [CalledProcessError]
       (mret false))
    (unlink concat_file_path).

(** *** [main] *)

Fixpoint extract_loop (selected_videos : list (datetime * string))
    (i : nat) (dates : list datetime) (clip_paths : list string)
    : io (list string) :=
  match dates with
  | [] => mret clip_paths
  | date :: rest =>
      video_path ← lift (match dict_get date selected_videos with
                         | Some v => Ok v
                         | None => Raise KeyError
                         end);
      let clip := clip_path i date in
      duration ← lift (get_video_duration json_loads py_float
                         (ffprobe_format w video_path));
      let actual_clip_duration := py_min clip_duration duration in
      ok ← extract_clip video_path clip (Some actual_clip_duration) (Some 0);
      if ok : bool then
        valid ← lift (validate_clip json_loads py_float (ffprobe_streams w clip));
        if valid : bool
        then extract_loop selected_videos (S i) rest (clip_paths ++ [clip])
        else extract_loop selected_videos (S i) rest clip_paths
      else extract_loop selected_videos (S i) rest clip_paths
  end.

Definition preflight : io bool :=
  try_except
    (_ ← lift (ffmpeg_version w);
     _ ← lift (ffprobe_version w);
     mret true)
    [CalledProcessError; FileNotFoundError]
    (mret false).

(** [sorted(selected_videos.keys())] is a stable merge sort; so is
    [merge_sort]. *)
Definition main : io status :=
  tools ← preflight;
  if negb tools then mret Missing_tools else
  video_files ← lift (get_video_files (iterdir w));
  match video_files with
  | [] => mret No_video_files
  | _ :: _ =>
      grouped_videos ← lift (group_by_date video_files);
      let selected_videos := select_one_per_day (rand w) grouped_videos in
      let sorted_dates := merge_sort date_le (List.map fst selected_videos) in
      clip_paths ← extract_loop selected_videos O sorted_dates [];
      match clip_paths with
      | [] => mret No_clips
      | _ :: _ =>
          ok ← concatenate_videos clip_paths output_file;
          if ok : bool then mret (Compiled (length clip_paths))
          else mret Concat_failed
      end
  end.

End Pipeline.

Definition initial : state := {| files := ∅; trace := [] |}.

(** ** The text of a date

    [YYYY], [MM] and [DD] as they stand in a file name: decimal, padded
    with zeros. *)

Definition digit_char (k : Z) : ascii := ascii_of_N (Z.to_N (48 + k)).

Definition two_digits (n : Z) : string :=
  String (digit_char (n / 10)) (String (digit_char (n mod 10)) EmptyString).

Definition four_digits (n : Z) : string :=
  String (digit_char (n / 1000))
    (String (digit_char (n / 100 mod 10))
       (String (digit_char (n / 10 mod 10))
          (String (digit_char (n mod 10)) EmptyString))).

Definition date_text (y m d : Z) : string :=
  four_digits y +:+ "-" +:+ two_digits m +:+ "-" +:+ two_digits d.

Fixpoint newline_free (s : string) : bool :=
  match s with
  | EmptyString => true
  | String c s' => negb (is_newline c) && newline_free s'
  end.

(** ** A sample environment

    The scenario of the specification: three clips on two days and a text
    file; every tool succeeds.  [ffprobe] answers with one of two documents,
    named here by a tag instead of their JSON text. *)

Definition clip_report : json :=
  JDict [("streams", JList [JDict [("codec_type", JStr "video")];
                            JDict [("codec_type", JStr "audio")]]);
         ("format", JDict [("duration", JStr "1.400000")])].

Definition source_report : json :=
  JDict [("format", JDict [("duration", JStr "10.000000")])].

Definition sample_loads (stdout : string) : result json :=
  if String.eqb stdout "clip" then Ok clip_report
  else if String.eqb stdout "source" then Ok source_report
  else Raise JSONDecodeError.

Definition sample_float (v : json) : result float :=
  match v with
  | JFloat x => Ok x
  | JStr s =>
      if String.eqb s "1.400000" then Ok f1_4
      else if String.eqb s "10.000000" then Ok f10_0
      else if String.eqb s "1.000000" then Ok f1_0
      else Raise ValueError
  | _ => Raise TypeError
  end.

(** The clip path for an index below 10000 and a year of four digits. *)
Definition sample_clip_path (i : nat) (date : datetime) : string :=
  "/tmp/run/clip_" +:+ four_digits (Z.of_nat i) +:+ "_"
  +:+ four_digits (year date) +:+ two_digits (month date)
  +:+ two_digits (day date) +:+ ".mp4".

Definition sample_world : world := {|
  ffmpeg_version := Ok EmptyString;
  ffprobe_version := Ok EmptyString;
  iterdir := Ok ["2024-01-03_c-main.mp4"; "2024-01-01_a-main.mp4";
                 "notes.txt"; "2024-01-01_b-main.mp4"];
  rand := fun k => 1%nat;
  ffprobe_format := fun _ => Ok "source";
  ffmpeg_extract := fun _ _ _ _ => Ok EmptyString;
  ffprobe_streams := fun _ => Ok "clip";
  named_temporary_file := Ok "/tmp/tmpab12.txt";
  write_text := fun _ _ => Ok tt;
  ffmpeg_concat := fun _ _ => Ok EmptyString
|}.

Definition run_main (w : world) : state * result status :=
  main sample_loads sample_float sample_clip_path w initial.

(** The sample environment with a full disk: the manifest cannot be
    written. *)
Definition disk_full_world : world := {|
  ffmpeg_version := ffmpeg_version sample_world;
  ffprobe_version := ffprobe_version sample_world;
  iterdir := iterdir sample_world;
  rand := rand sample_world;
  ffprobe_format := ffprobe_format sample_world;
  ffmpeg_extract := ffmpeg_extract sample_world;
  ffprobe_streams := ffprobe_streams sample_world;
  named_temporary_file := named_temporary_file sample_world;
  write_text := fun _ _ => Raise OSError;
  ffmpeg_concat := ffmpeg_concat sample_world
|}.

(** ** Reading a trace *)

Definition is_extract (ev : event) : bool :=
  match ev with
  | Ffmpeg_extract _ _ _ _ => true
  | _ => false
  end.

(** The Concatenator is called, or its tool is started. *)
Definition is_concat (ev : event) : bool := negb (is_extract ev).

Section Requests.

Variable json_loads : string -> result json.
Variable py_float : json -> result float.
Variable w : world.

(** The clip at [path] passed validation. *)
Definition valid_clip (path : string) : Prop :=
  validate_clip json_loads py_float (ffprobe_streams w path) = Ok true.

(** An extraction request of [main]: from the start of the selected file of
    some date, for the smaller of the target and what the duration probe
    returned. *)
Definition extract_request (selected_videos : list (datetime * string))
    (ev : event) : Prop :=
  match ev with
  | Ffmpeg_extract input _ duration start_time =>
      exists date d,
        dict_get date selected_videos = Some input /\
        get_video_duration json_loads py_float (ffprobe_format w input) = Ok d /\
        duration = py_min clip_duration d /\
        start_time = 0
  | _ => False
  end.

(** An extraction request for a file selected in this environment. *)
Definition main_request (ev : event) : Prop :=
  exists video_files grouped,
    get_video_files (iterdir w) = Ok video_files /\
    group_by_date video_files = Ok grouped /\
    extract_request (select_one_per_day (rand w) grouped) ev.

Variable clip_path : nat -> datetime -> string.

(** [main] up to the end of the extraction loop: the status of an early
    exit, or the list of surviving clip paths. *)
Definition collect : io (status + list string) :=
  tools ← preflight w;
  if negb tools then mret (inl Missing_tools) else
  video_files ← lift (get_video_files (iterdir w));
  match video_files with
  | [] => mret (inl No_video_files)
  | _ :: _ =>
      grouped_videos ← lift (group_by_date video_files);
      let selected_videos := select_one_per_day (rand w) grouped_videos in
      let sorted_dates := merge_sort date_le (List.map fst selected_videos) in
      clip_paths ← extract_loop json_loads py_float clip_path w
                     selected_videos O sorted_dates [];
      mret (inr clip_paths)
  end.

(** What [main] does with the outcome of [collect]. *)
Definition finish (collected : status + list string) : io status :=
  match collected with
  | inl st => mret st
  | inr [] => mret No_clips
  | inr clip_paths =>
      ok ← concatenate_videos w clip_paths output_file;
      if ok : bool then mret (Compiled (length clip_paths))
      else mret Concat_failed
  end.

End Requests.

(** The sample environment where [ffprobe] cannot read any source file. *)
Definition probe_fails_world : world := {|
  ffmpeg_version := ffmpeg_version sample_world;
  ffprobe_version := ffprobe_version sample_world;
  iterdir := iterdir sample_world;
  rand := rand sample_world;
  ffprobe_format := fun _ => Raise CalledProcessError;
  ffmpeg_extract := ffmpeg_extract sample_world;
  ffprobe_streams := ffprobe_streams sample_world;
  named_temporary_file := named_temporary_file sample_world;
  write_text := write_text sample_world;
  ffmpeg_concat := ffmpeg_concat sample_world
|}.

(** The sample environment where the probe of every clip prints no JSON
    text. *)
Definition no_survivor_world : world := {|
  ffmpeg_version := ffmpeg_version sample_world;
  ffprobe_version := ffprobe_version sample_world;
  iterdir := iterdir sample_world;
  rand := rand sample_world;
  ffprobe_format := ffprobe_format sample_world;
  ffmpeg_extract := ffmpeg_extract sample_world;
  ffprobe_streams := fun _ => Ok "garbage";
  named_temporary_file := named_temporary_file sample_world;
  write_text := write_text sample_world;
  ffmpeg_concat := ffmpeg_concat sample_world
|}.

(** ** Reading a probe document

    [ffprobe] prints an object with a list of stream objects under
    [streams] and an object under [format]. *)

Definition is_dict (v : json) : bool :=
  match v with
  | JDict _ => true
  | _ => false
  end.

Definition shown_streams (d : list (string * json)) : option (list json) :=
  match assoc "streams" d with
  | None => Some []
  | Some (JList l) => if forallb is_dict l then Some l else None
  | Some _ => None
  end.

Definition has_codec_type (kind : string) (stream : json) : bool :=
  match stream with
  | JDict d =>
      match assoc "codec_type" d with
      | Some v => eq_str v kind
      | None => false
      end
  | _ => false
  end.

(** The document lists a stream of the given kind. *)
Definition shows_stream (kind : string) (streams : list json) : bool :=
  existsb (has_codec_type kind) streams.

(** The duration the document gives, if it gives one. *)
Definition shown_duration (py_float : json -> result float)
    (d : list (string * json)) : option (option float) :=
  match assoc "format" d with
  | None => Some None
  | Some (JDict f) =>
      match assoc "duration" f with
      | None => Some None
      | Some x =>
          match py_float x with
          | Ok v => Some (Some v)
          | Raise _ => None
          end
      end
  | Some _ => None
  end.

(** An extension that is [.mp4] up to letter case and is not [.mp4]. *)
Definition case_variant (ext : string) : Prop :=
  lower ext = ".mp4" /\ ext <> ".mp4".

(** The sample environment with one more file, whose extension is in
    capital letters. *)
Definition capital_world : world := {|
  ffmpeg_version := ffmpeg_version sample_world;
  ffprobe_version := ffprobe_version sample_world;
  iterdir := Ok ["2024-01-03_c-main.mp4"; "2024-01-02_x.MP4";
                 "2024-01-01_a-main.mp4"];
  rand := rand sample_world;
  ffprobe_format := ffprobe_format sample_world;
  ffmpeg_extract := ffmpeg_extract sample_world;
  ffprobe_streams := ffprobe_streams sample_world;
  named_temporary_file := named_temporary_file sample_world;
  write_text := write_text sample_world;
  ffmpeg_concat := ffmpeg_concat sample_world
|}.

(** ** Further readings of the script's data

    Definitions the further properties are stated with. *)


(** The parser gives [date] for the name. *)
Definition has_date (date : datetime) (name : string) : bool :=
  match parse_date_from_filename name with
  | Ok (Some d) => bool_decide (d = date)
  | _ => false
  end.

(** The probe could not be used: it exited with a failure, printed no JSON
    text, or printed an object without [format], without [duration] under
    it, or with a duration [float] rejects. *)
Definition unusable_probe (json_loads : string -> result json)
    (py_float : json -> result float) (run : completed) : Prop :=
  run = Raise CalledProcessError \/
  exists stdout, run = Ok stdout /\
    (json_loads stdout = Raise JSONDecodeError \/
     exists d, json_loads stdout = Ok (JDict d) /\
       (assoc "format" d = None \/
        exists f, assoc "format" d = Some (JDict f) /\
          (assoc "duration" f = None \/
           exists x, assoc "duration" f = Some x /\
             py_float x = Raise ValueError))).

(** [enumerate(l)], counting from [i] *)
Fixpoint enumerate {A} (i : nat) (l : list A) : list (nat * A) :=
  match l with
  | [] => []
  | x :: rest => (i, x) :: enumerate (S i) rest
  end.

Section Days.

Variable json_loads : string -> result json.
Variable py_float : json -> result float.
Variable clip_path : nat -> datetime -> string.
Variable w : world.
Variable selected_videos : list (datetime * string).

(** One day of the extraction loop, when nothing it calls lets an
    exception out: the extraction it requests and whether its clip
    survives. *)
Definition day_outcome (p : nat * datetime) : option (event * bool) :=
  match dict_get (snd p) selected_videos with
  | None => None
  | Some video_path =>
      match get_video_duration json_loads py_float (ffprobe_format w video_path) with
      | Raise _ => None
      | Ok d =>
          let clip := clip_path (fst p) (snd p) in
          let duration := py_min clip_duration d in
          let request := Ffmpeg_extract video_path clip duration 0 in
          match ffmpeg_extract w video_path clip duration 0 with
          | Ok _ =>
              match validate_clip json_loads py_float (ffprobe_streams w clip) with
              | Ok valid => Some (request, valid)
              | Raise _ => None
              end
          | Raise e =>
              if isinstance e CalledProcessError then Some (request, false)
              else None
          end
      end
  end.

Definition day_request (p : nat * datetime) : option event :=
  fst <$> day_outcome p.

Definition survives (p : nat * datetime) : bool :=
  match day_outcome p with
  | Some (_, true) => true
  | _ => false
  end.

End Days.

(** The outcome of the check for the two tools. *)
Definition tools_outcome (w : world) : result bool :=
  match ffmpeg_version w with
  | Raise e =>
      if caught_by [CalledProcessError; FileNotFoundError] e then Ok false
      else Raise e
  | Ok _ =>
      match ffprobe_version w with
      | Raise e =>
          if caught_by [CalledProcessError; FileNotFoundError] e then Ok false
          else Raise e
      | Ok _ => Ok true
      end
  end.

(** The sample environment where the probe of every clip exits with a
    failure. *)
Definition failed_clip_probe_world : world := {|
  ffmpeg_version := ffmpeg_version sample_world;
  ffprobe_version := ffprobe_version sample_world;
  iterdir := iterdir sample_world;
  rand := rand sample_world;
  ffprobe_format := ffprobe_format sample_world;
  ffmpeg_extract := ffmpeg_extract sample_world;
  ffprobe_streams := fun _ => Raise CalledProcessError;
  named_temporary_file := named_temporary_file sample_world;
  write_text := write_text sample_world;
  ffmpeg_concat := ffmpeg_concat sample_world
|}.

(** The sample environment where the second day's extraction exits with a
    failure. *)
Definition second_day_fails_world : world := {|
  ffmpeg_version := ffmpeg_version sample_world;
  ffprobe_version := ffprobe_version sample_world;
  iterdir := iterdir sample_world;
  rand := rand sample_world;
  ffprobe_format := ffprobe_format sample_world;
  ffmpeg_extract := fun input _ _ _ =>
    if String.eqb input "2024-01-03_c-main.mp4" then Raise CalledProcessError
    else Ok EmptyString;
  ffprobe_streams := ffprobe_streams sample_world;
  named_temporary_file := named_temporary_file sample_world;
  write_text := write_text sample_world;
  ffmpeg_concat := ffmpeg_concat sample_world
|}.

(** The files, buckets, selection and dates of the sample environment. *)
Definition sample_files : list string :=
  ["2024-01-03_c-main.mp4"; "2024-01-01_a-main.mp4"; "2024-01-01_b-main.mp4"].

Definition sample_grouped : buckets :=
  [(mkdate 2024 1 3, ["2024-01-03_c-main.mp4"]);
   (mkdate 2024 1 1, ["2024-01-01_a-main.mp4"; "2024-01-01_b-main.mp4"])].

Definition sample_selected : list (datetime * string) :=
  [(mkdate 2024 1 3, "2024-01-03_c-main.mp4");
   (mkdate 2024 1 1, "2024-01-01_b-main.mp4")].

Definition sample_dates : list datetime := [mkdate 2024 1 1; mkdate 2024 1 3].

(** * Properties *)

(** ** Appending strings *)

Lemma append_nil (t : string) : EmptyString +:+ t = t.
Proof. reflexivity. Qed.

Lemma append_cons (c : ascii) (s t : string) :
  String c s +:+ t = String c (s +:+ t).
Proof. reflexivity. Qed.

(** ** The script on the scenario of the specification *)

Example parse_plain :
  parse_date_from_filename "2024-01-03_c-main.mp4" = Ok (Some (mkdate 2024 1 3)).
Proof. reflexivity. Qed.

Example parse_leap_day :
  parse_date_from_filename "2024-02-29_.mp4" = Ok (Some (mkdate 2024 2 29)).
Proof. reflexivity. Qed.

Example parse_notes : parse_date_from_filename "notes.txt" = Ok None.
Proof. reflexivity. Qed.

Example parse_upper_ext : parse_date_from_filename "2024-01-01_a.MP4" = Ok None.
Proof. reflexivity. Qed.

Example parse_trailing_newline :
  parse_date_from_filename ("2024-01-01_a.mp4" +:+ nl) = Ok (Some (mkdate 2024 1 1)).
Proof. reflexivity. Qed.

Example parse_inner_newline :
  parse_date_from_filename ("2024-01-01_a" +:+ nl +:+ "b.mp4") = Ok None.
Proof. reflexivity. Qed.

Example parse_month_13 :
  parse_date_from_filename "2024-13-01_a.mp4" = Raise ValueError.
Proof. reflexivity. Qed.

Example parse_year_0 :
  parse_date_from_filename "0000-01-01_a.mp4" = Raise ValueError.
Proof. reflexivity. Qed.

Example scenario_groups :
  group_by_date ["2024-01-01_a-main.mp4"; "2024-01-01_b-main.mp4";
                 "2024-01-03_c-main.mp4"]
  = Ok [(mkdate 2024 1 1, ["2024-01-01_a-main.mp4"; "2024-01-01_b-main.mp4"]);
        (mkdate 2024 1 3, ["2024-01-03_c-main.mp4"])].
Proof. reflexivity. Qed.

Example scenario_scan :
  get_video_files (Ok ["2024-01-01_a-main.mp4"; "notes.txt"; "2024-01-02_x.MP4";
                       ".mp4"; "clip.mp4."])
  = Ok ["2024-01-01_a-main.mp4"; "2024-01-02_x.MP4"].
Proof. reflexivity. Qed.

(** ** The parser on names that are no calendar date *)

(** C2.  The parser is to return the embedded date or "no date" and never
    to raise.  On a name that has the shape of the pattern and whose digits
    are no calendar date, [strptime] raises [ValueError] and nothing in
    [parse_date_from_filename] handles it. *)
Theorem parse_date_raises_on_impossible_date :
  re_match_filename "2024-02-30_x-main.mp4" = Some "2024-02-30" /\
  parse_date_from_filename "2024-02-30_x-main.mp4" = Raise ValueError.
Proof. split; reflexivity. Qed.

(** A name the regular expression rejects is "no date", without an
    exception. *)
Lemma parse_date_no_match (filename : string) :
  re_match_filename filename = None ->
  parse_date_from_filename filename = Ok None.
Proof. intros H. unfold parse_date_from_filename. now rewrite H. Qed.

(** The parser returns a date only for a name the expression accepts, and
    then the date [strptime] reads in [group(1)]. *)
Lemma parse_date_some (filename : string) (d : datetime) :
  parse_date_from_filename filename = Ok (Some d) <->
  exists g, re_match_filename filename = Some g /\ strptime g = Ok d.
Proof.
  unfold parse_date_from_filename. split.
  - destruct (re_match_filename filename) as [g|]; [|discriminate].
    destruct (strptime g) as [d'|e] eqn:Hs; cbn; [|discriminate].
    intros [= ->]. now exists g.
  - intros (g & -> & ->). reflexivity.
Qed.

(** ** The parser on the names of the corpus *)

Lemma digit_char_spec (k : Z) :
  0 <= k <= 9 ->
  is_digit (digit_char k) = true /\ digit_value (digit_char k) = k.
Proof.
  intros Hk.
  assert (Hc : In k (List.map Z.of_nat (seq 0 10))).
  { apply in_map_iff. exists (Z.to_nat k). split; [lia|apply in_seq; lia]. }
  cbn in Hc. repeat destruct Hc as [<-|Hc]; try contradiction;
    split; reflexivity.
Qed.

Ltac digit_range := Z.div_mod_to_equations; lia.

Lemma re_digits_four (y : Z) (t : string) :
  0 <= y <= 9999 ->
  re_digits 4 (four_digits y +:+ t) = Some (four_digits y, t).
Proof.
  intros Hy. unfold four_digits. rewrite !append_cons, append_nil.
  cbn [re_digits].
  rewrite (proj1 (digit_char_spec (y / 1000) ltac:(digit_range))),
          (proj1 (digit_char_spec (y / 100 mod 10) ltac:(digit_range))),
          (proj1 (digit_char_spec (y / 10 mod 10) ltac:(digit_range))),
          (proj1 (digit_char_spec (y mod 10) ltac:(digit_range))).
  reflexivity.
Qed.

Lemma re_digits_two (n : Z) (t : string) :
  0 <= n <= 99 ->
  re_digits 2 (two_digits n +:+ t) = Some (two_digits n, t).
Proof.
  intros Hn. unfold two_digits. rewrite !append_cons, append_nil.
  cbn [re_digits].
  rewrite (proj1 (digit_char_spec (n / 10) ltac:(digit_range))),
          (proj1 (digit_char_spec (n mod 10) ltac:(digit_range))).
  reflexivity.
Qed.

Lemma number_of_four (y : Z) : 0 <= y <= 9999 -> number_of 0 (four_digits y) = y.
Proof.
  intros Hy. unfold four_digits. cbn [number_of].
  rewrite (proj2 (digit_char_spec (y / 1000) ltac:(digit_range))),
          (proj2 (digit_char_spec (y / 100 mod 10) ltac:(digit_range))),
          (proj2 (digit_char_spec (y / 10 mod 10) ltac:(digit_range))),
          (proj2 (digit_char_spec (y mod 10) ltac:(digit_range))).
  digit_range.
Qed.

Lemma re_char_here (c : ascii) (t : string) :
  re_char c (String c t) = Some t.
Proof. unfold re_char, ascii_eqb. now rewrite Z.eqb_refl. Qed.

(** The expression accepts [YYYY-MM-DD_], any text on one line, [.mp4]. *)
Lemma dot_star_mp4 (body : string) :
  newline_free body = true ->
  re_dot_star re_mp4_end (body +:+ ".mp4") = true.
Proof.
  induction body as [|c body IH]; [reflexivity|].
  cbn [newline_free]. intros [Hc Hb]%andb_true_iff.
  rewrite append_cons. cbn [re_dot_star]. now rewrite Hc, (IH Hb).
Qed.

Lemma append_assoc (a b c : string) : (a +:+ b) +:+ c = a +:+ (b +:+ c).
Proof.
  induction a as [|x a IH]; [reflexivity|].
  now rewrite !append_cons, IH.
Qed.

Lemma re_match_date_text (y m d : Z) (rest : string) :
  0 <= y <= 9999 -> 0 <= m <= 99 -> 0 <= d <= 99 ->
  re_dot_star re_mp4_end rest = true ->
  re_match_filename (date_text y m d +:+ "_" +:+ rest) = Some (date_text y m d).
Proof.
  intros Hy Hm Hd Hrest. unfold re_match_filename, date_text.
  rewrite !append_assoc, !append_cons, !append_nil.
  rewrite (re_digits_four y _ Hy), re_char_here.
  rewrite (re_digits_two m _ Hm), re_char_here.
  rewrite (re_digits_two d _ Hd), re_char_here.
  now rewrite Hrest.
Qed.

Lemma valid_date_range (y m d : Z) :
  valid_date y m d = true -> 1 <= y <= 9999 /\ 1 <= m <= 12 /\ 1 <= d <= 31.
Proof.
  unfold valid_date, days_in_month. rewrite !andb_true_iff, !Z.leb_le.
  intros [[[[[? ?] ?] ?] ?] Hd].
  destruct (m =? 2); [destruct (is_leap y)|destruct (_ || _)]; lia.
Qed.

Lemma fmt_Ymd_date_text (y m d : Z) :
  0 <= y <= 9999 -> 1 <= m <= 12 -> 1 <= d <= 31 ->
  fmt_Ymd (date_text y m d) = Some (y, m, d, EmptyString).
Proof.
  intros Hy Hm Hd. unfold fmt_Ymd, date_text.
  rewrite !append_cons, !append_nil.
  rewrite (re_digits_four y _ Hy), re_char_here, (number_of_four y Hy).
  assert (Hmc : In m (List.map Z.of_nat (seq 1 12))).
  { apply in_map_iff. exists (Z.to_nat m). split; [lia|apply in_seq; lia]. }
  assert (Hdc : In d (List.map Z.of_nat (seq 1 31))).
  { apply in_map_iff. exists (Z.to_nat d). split; [lia|apply in_seq; lia]. }
  clear Hy Hm Hd. cbn in Hmc, Hdc.
  repeat destruct Hmc as [<-|Hmc]; try contradiction;
    repeat destruct Hdc as [<-|Hdc]; try contradiction;
    vm_compute; reflexivity.
Qed.

Lemma strptime_date_text (y m d : Z) :
  valid_date y m d = true -> strptime (date_text y m d) = Ok (mkdate y m d).
Proof.
  intros Hv. destruct (valid_date_range y m d Hv) as (Hy & Hm & Hd).
  unfold strptime.
  rewrite (fmt_Ymd_date_text y m d ltac:(lia) Hm Hd). now rewrite Hv.
Qed.

(** On a name [YYYY-MM-DD_<text>.mp4], where the digits are a calendar date
    and the text has no newline, the parser returns that date. *)
Lemma parse_date_recovers (y m d : Z) (body : string) :
  valid_date y m d = true -> newline_free body = true ->
  parse_date_from_filename (date_text y m d +:+ "_" +:+ body +:+ ".mp4")
  = Ok (Some (mkdate y m d)).
Proof.
  intros Hv Hb. destruct (valid_date_range y m d Hv) as (Hy & Hm & Hd).
  apply parse_date_some. exists (date_text y m d). split.
  - apply re_match_date_text; try lia. now apply dot_star_mp4.
  - now apply strptime_date_text.
Qed.

(** With digits that are no calendar date the same name makes the parser
    raise. *)
Lemma parse_date_raises (y m d : Z) (body : string) :
  0 <= y <= 9999 -> 0 <= m <= 99 -> 0 <= d <= 99 ->
  newline_free body = true ->
  (forall dt, strptime (date_text y m d) <> Ok dt) ->
  parse_date_from_filename (date_text y m d +:+ "_" +:+ body +:+ ".mp4")
  = Raise ValueError.
Proof.
  intros Hy Hm Hd Hb Hs. unfold parse_date_from_filename.
  rewrite (re_match_date_text y m d _ Hy Hm Hd (dot_star_mp4 body Hb)).
  unfold strptime in *.
  destruct (fmt_Ymd (date_text y m d)) as [[[[y' m'] d'] rest]|]; [|reflexivity].
  destruct rest; [|reflexivity].
  destruct (valid_date y' m' d'); [|reflexivity].
  now destruct (Hs (mkdate y' m' d')).
Qed.

(** C8.  The Day Grouper is to drop a file with no parsable date silently.
    It calls the parser without a handler, so one name whose digits are no
    calendar date makes the whole grouping raise. *)
Theorem group_by_date_raises_on_impossible_date :
  group_by_date ["2024-01-01_a-main.mp4"; "2024-02-30_x-main.mp4";
                 "2024-01-03_c-main.mp4"] = Raise ValueError.
Proof. reflexivity. Qed.

(** ** The validator when the probe fails *)

(** C4.  A probe that exits with a non-zero status is to make the validator
    answer "invalid".  [subprocess.run] raises before [import json] has
    bound the local name [json], which the [except] clause mentions: the
    call ends in [UnboundLocalError]. *)
Theorem validate_clip_probe_failure_escalates
    (json_loads : string -> result json) (py_float : json -> result float) :
  validate_clip json_loads py_float (Raise CalledProcessError)
  = Raise UnboundLocalError.
Proof. reflexivity. Qed.

(** Output that is no JSON text is classified invalid. *)
Lemma validate_clip_malformed_text
    (json_loads : string -> result json) (py_float : json -> result float)
    (stdout : string) :
  json_loads stdout = Raise JSONDecodeError ->
  validate_clip json_loads py_float (Ok stdout) = Ok false.
Proof.
  intros H. unfold validate_clip, validate_body, validate_data.
  rewrite H. reflexivity.
Qed.

(** The duration probe, which does not mention [json] in its handler,
    turns the same failure into its fallback. *)
Lemma get_video_duration_probe_failure
    (json_loads : string -> result json) (py_float : json -> result float) :
  get_video_duration json_loads py_float (Raise CalledProcessError) = Ok f10_0.
Proof. reflexivity. Qed.

(** ** The defaults of the Clip Extractor *)

(** C9, as stated, fails: called without a duration, the extractor does not
    ask [ffmpeg] for 1.4 seconds. *)
Lemma extract_clip_default_is_not_1_4 :
  trace (fst (extract_clip sample_world "in.mp4" "out.mp4" None None initial))
  <> [Ffmpeg_extract "in.mp4" "out.mp4" f1_4 0].
Proof. vm_compute. discriminate. Qed.

(** C9, amended.  Called without a duration and a start offset, the
    extractor asks for 1.6 seconds from offset 0; the 1.4 seconds of a run
    are what [main] passes. *)
Theorem extract_clip_defaults (w : world) (input output : string) (s : state) :
  trace (fst (extract_clip w input output None None s))
  = trace s ++ [Ffmpeg_extract input output f1_6 0] /\
  flt clip_duration f1_6 = true.
Proof.
  split; [|reflexivity].
  unfold extract_clip, try_except, mbind, io_bind, emit, lift; cbn.
  destruct (ffmpeg_extract w input output f1_6 0) as [out|e]; cbn; [reflexivity|].
  destruct (isinstance e CalledProcessError); reflexivity.
Qed.

(** ** The manifest of the Concatenator *)

(** C7.  The manifest is to be removed however the Concatenator exits.  The
    file is created and written before the [try] that removes it: when the
    writing raises, the exception leaves the function and the file stays. *)
Theorem concatenate_videos_leaks_manifest :
  let r := concatenate_videos disk_full_world
             ["/tmp/run/clip_0000_20240101.mp4"] output_file initial in
  snd r = Raise OSError /\
  files (fst r) !! "/tmp/tmpab12.txt" = Some EmptyString.
Proof. split; vm_compute; reflexivity. Qed.

(** Once the manifest is written, every outcome of [ffmpeg] leaves no
    manifest behind: success, a non-zero exit status, any other
    exception. *)
Lemma concatenate_videos_removes_manifest (w : world) (clip_paths : list string)
    (output_path name : string) (s : state) :
  named_temporary_file w = Ok name ->
  write_text w name (manifest_text clip_paths) = Ok tt ->
  files (fst (concatenate_videos w clip_paths output_path s)) = delete name (files s) /\
  snd (concatenate_videos w clip_paths output_path s)
  = match ffmpeg_concat w name output_path with
    | Ok _ => Ok true
    | Raise e => if isinstance e CalledProcessError then Ok false else Raise e
    end.
Proof.
  intros Hn Hw.
  unfold concatenate_videos, create_concat_file, try_finally, try_except,
    unlink, create_file, mbind, io_bind, mret, io_ret, emit, lift; cbn.
  rewrite Hn; cbn. rewrite Hw; cbn.
  destruct (ffmpeg_concat w name output_path) as [out|e]; cbn.
  - rewrite lookup_insert_eq; cbn.
    split; [|reflexivity].
    now rewrite insert_insert_eq, delete_insert_eq.
  - destruct (isinstance e CalledProcessError) eqn:He; cbn;
      rewrite ?orb_false_r, ?lookup_insert_eq; cbn;
      (split; [|reflexivity]);
      now rewrite insert_insert_eq, delete_insert_eq.
Qed.

(** ** Comparison of floats *)

Lemma compare_cont_refl (m : positive) : PosDef.Pos.compare_cont Eq m m = Eq.
Proof. exact (Pos.compare_refl m). Qed.

Lemma compare_cont_antisym (m1 m2 : positive) :
  PosDef.Pos.compare_cont Eq m2 m1 = CompOpp (PosDef.Pos.compare_cont Eq m1 m2).
Proof. exact (Pos.compare_antisym m1 m2). Qed.

Lemma flt_irrefl (x : float) : flt x x = false.
Proof.
  unfold flt, SFltb, SFcompare.
  destruct x as [[]|[]| |[] m e]; try reflexivity;
    now rewrite Z.compare_refl, compare_cont_refl.
Qed.

Lemma flt_asym (x y : float) : flt x y = true -> flt y x = false.
Proof.
  unfold flt, SFltb, SFcompare.
  destruct x as [[]|[]| |[] m1 e1], y as [[]|[]| |[] m2 e2];
    try reflexivity; try discriminate;
    rewrite (Z.compare_antisym e1 e2), (compare_cont_antisym m1 m2);
    destruct (e1 ?= e2)%Z; cbn; try reflexivity; try discriminate;
    destruct (PosDef.Pos.compare_cont Eq m1 m2); cbn;
    try reflexivity; discriminate.
Qed.

(** [min] returns one of its arguments, and neither is below it. *)
Lemma py_min_spec (a b : float) :
  (py_min a b = a \/ py_min a b = b) /\
  flt a (py_min a b) = false /\ flt b (py_min a b) = false.
Proof.
  unfold py_min. destruct (flt b a) eqn:Hba.
  - split; [now right|]. split; [now apply flt_asym|apply flt_irrefl].
  - split; [now left|]. split; [apply flt_irrefl|exact Hba].
Qed.

(** ** Chronological order *)

Ltac date_cases :=
  unfold date_le, date_lt, date_compare in *; cbn in *;
  repeat match goal with
         | |- context [?x ?= ?y] => destruct (Z.compare_spec x y)
         | H : context [?x ?= ?y] |- _ => destruct (Z.compare_spec x y)
         end;
  subst; try congruence; try lia.

Lemma date_compare_eq (a b : datetime) : date_compare a b = Eq -> a = b.
Proof. destruct a, b. date_cases. Qed.

Lemma date_le_trans : Transitive date_le.
Proof. intros [] [] []. date_cases. Qed.

Lemma date_le_total : Total date_le.
Proof. intros [] []. date_cases; try (left; congruence); right; congruence. Qed.

Lemma date_lt_trans : Transitive date_lt.
Proof. intros [] [] []. date_cases. Qed.

#[global] Existing Instances date_le_trans date_le_total date_lt_trans.

Lemma date_lt_irrefl (a : datetime) : ~ date_lt a a.
Proof. destruct a. date_cases. Qed.

Lemma date_le_neq_lt (a b : datetime) : date_le a b -> a <> b -> date_lt a b.
Proof.
  unfold date_le, date_lt. intros Hle Hne.
  destruct (date_compare a b) eqn:Hc; [|reflexivity|congruence].
  now apply date_compare_eq in Hc.
Qed.

(** A sorted list without repetition is strictly increasing. *)
Lemma sorted_nodup_strict (l : list datetime) :
  StronglySorted date_le l -> NoDup l -> StronglySorted date_lt l.
Proof.
  induction 1 as [|x l Hs IH Hall]; intros Hnd; [constructor|].
  apply NoDup_cons in Hnd as [Hx Hnd].
  constructor; [auto|].
  rewrite Forall_forall in *. intros y Hy.
  apply date_le_neq_lt; [auto|]. intros ->. contradiction.
Qed.

Lemma sublist_strict (l k : list datetime) :
  sublist l k -> StronglySorted date_lt k -> StronglySorted date_lt l.
Proof.
  induction 1 as [|x l k Hsub IH|x l k Hsub IH]; intros Hk.
  - constructor.
  - apply StronglySorted_inv in Hk as [Hk Hall].
    constructor; [auto|].
    rewrite Forall_forall in *. intros y Hy.
    apply Hall. eapply elem_of_sublist; eauto.
  - apply StronglySorted_inv in Hk as [Hk _]. auto.
Qed.

(** [sorted] of pairwise distinct dates. *)
Lemma sorted_dates_strict (keys : list datetime) :
  NoDup keys -> StronglySorted date_lt (merge_sort date_le keys).
Proof.
  intros Hnd. apply sorted_nodup_strict.
  - apply StronglySorted_merge_sort; apply _.
  - now rewrite merge_sort_Permutation.
Qed.

(** ** Buckets *)

Lemma keys_dict_append (date : datetime) (f : string) (grouped : buckets) :
  keys (dict_append date f grouped)
  = if decide (date ∈ keys grouped) then keys grouped else keys grouped ++ [date].
Proof.
  induction grouped as [|[d fs] rest IH]; cbn.
  - rewrite decide_False; [reflexivity|]. apply not_elem_of_nil.
  - destruct (decide (d = date)) as [->|Hne]; cbn.
    + rewrite decide_True; [reflexivity|]. apply elem_of_cons; now left.
    + unfold keys in IH. rewrite IH.
      destruct (decide (date ∈ List.map fst rest)) as [Hin|Hnin].
      * rewrite decide_True; [reflexivity|]. apply elem_of_cons; now right.
      * rewrite decide_False; [reflexivity|].
        rewrite elem_of_cons. intros [->|?]; contradiction.
Qed.

Lemma NoDup_keys_dict_append (date : datetime) (f : string) (grouped : buckets) :
  NoDup (keys grouped) -> NoDup (keys (dict_append date f grouped)).
Proof.
  intros Hnd. rewrite keys_dict_append.
  destruct (decide (date ∈ keys grouped)) as [Hin|Hnin]; [assumption|].
  apply NoDup_app. repeat split; [assumption| |apply NoDup_singleton].
  intros x Hx Hx'. apply list_elem_of_singleton in Hx' as ->. contradiction.
Qed.

Lemma in_bucket_dict_append (date : datetime) (f : string) (grouped : buckets)
    (d : datetime) (g : string) :
  in_bucket (dict_append date f grouped) d g <->
  in_bucket grouped d g \/ (d = date /\ g = f).
Proof.
  unfold in_bucket.
  induction grouped as [|[d0 fs0] rest IH]; cbn.
  - split.
    + intros (fs & Hin & Hg). apply list_elem_of_singleton in Hin.
      injection Hin as -> ->. apply list_elem_of_singleton in Hg. auto.
    + intros [(fs & Hin & _)|[-> ->]].
      * now apply elem_of_nil in Hin.
      * exists [f]. split; apply list_elem_of_singleton; reflexivity.
  - destruct (decide (d0 = date)) as [->|Hne].
    + split.
      * intros (fs & Hin & Hg). apply elem_of_cons in Hin as [Heq|Hin].
        -- injection Heq as -> ->. apply elem_of_app in Hg as [Hg|Hg].
           ++ left. exists fs0. split; [apply elem_of_cons; now left|assumption].
           ++ apply list_elem_of_singleton in Hg. auto.
        -- left. exists fs. split; [apply elem_of_cons; now right|assumption].
      * intros [(fs & Hin & Hg)|[-> ->]].
        -- apply elem_of_cons in Hin as [Heq|Hin].
           ++ injection Heq as -> ->. exists (fs0 ++ [f]).
              split; [apply elem_of_cons; now left|].
              apply elem_of_app; now left.
           ++ exists fs. split; [apply elem_of_cons; now right|assumption].
        -- exists (fs0 ++ [f]). split; [apply elem_of_cons; now left|].
           apply elem_of_app; right. now apply list_elem_of_singleton.
    + split.
      * intros (fs & Hin & Hg). apply elem_of_cons in Hin as [Heq|Hin].
        -- injection Heq as -> ->. left. exists fs0.
           split; [apply elem_of_cons; now left|assumption].
        -- destruct (proj1 IH) as [(fs' & Hin' & Hg')|Hnew]; [eauto| |auto].
           left. exists fs'. split; [apply elem_of_cons; now right|assumption].
      * intros [(fs & Hin & Hg)|Hnew].
        -- apply elem_of_cons in Hin as [Heq|Hin].
           ++ injection Heq as -> ->. exists fs0.
              split; [apply elem_of_cons; now left|assumption].
           ++ destruct (proj2 IH) as (fs' & Hin' & Hg'); [left; eauto|].
              exists fs'. split; [apply elem_of_cons; now right|assumption].
        -- destruct (proj2 IH) as (fs' & Hin' & Hg'); [now right|].
           exists fs'. split; [apply elem_of_cons; now right|assumption].
Qed.

Lemma in_bucket_nil (d : datetime) (f : string) : ~ in_bucket [] d f.
Proof. intros (fs & Hin & _). now apply elem_of_nil in Hin. Qed.

(** The loop of [group_by_date], from any dictionary built so far. *)
Lemma group_loop_spec (video_files : list string) :
  forall grouped grouped', group_loop video_files grouped = Ok grouped' ->
    (NoDup (keys grouped) -> NoDup (keys grouped')) /\
    forall d f, in_bucket grouped' d f <->
      in_bucket grouped d f \/
      (f ∈ video_files /\ parse_date_from_filename f = Ok (Some d)).
Proof.
  induction video_files as [|v rest IH]; cbn; intros grouped grouped' H.
  - injection H as <-. split; [auto|]. intros d f. split; [auto|].
    intros [?|[Hin _]]; [assumption|]. now apply elem_of_nil in Hin.
  - destruct (parse_date_from_filename v) as [[date|]|e] eqn:Hp; cbn in H;
      [| |discriminate].
    + apply IH in H as [Hnd Hb]. split.
      * intros Hg. apply Hnd. now apply NoDup_keys_dict_append.
      * intros d f. rewrite Hb, in_bucket_dict_append, elem_of_cons.
        split.
        -- intros [[?|[-> ->]]|[? ?]]; auto.
        -- intros [?|[[->|?] Hf]]; auto.
           rewrite Hp in Hf. injection Hf as ->. auto.
    + apply IH in H as [Hnd Hb]. split; [assumption|].
      intros d f. rewrite Hb, elem_of_cons. split.
      * intros [?|[? ?]]; auto.
      * intros [?|[[->|?] Hf]]; auto. rewrite Hp in Hf. discriminate.
Qed.

(** The loop raises exactly when the parser raises on some file. *)
Lemma group_loop_raises (video_files : list string) :
  forall grouped e, group_loop video_files grouped = Raise e ->
    exists f, f ∈ video_files /\ parse_date_from_filename f = Raise e.
Proof.
  induction video_files as [|v rest IH]; cbn; intros grouped e H; [discriminate|].
  destruct (parse_date_from_filename v) as [[date|]|e'] eqn:Hp; cbn in H.
  - apply IH in H as (f & Hin & Hf). exists f. split; [|assumption].
    apply elem_of_cons; now right.
  - apply IH in H as (f & Hin & Hf). exists f. split; [|assumption].
    apply elem_of_cons; now right.
  - injection H as ->. exists v. split; [apply elem_of_cons; now left|assumption].
Qed.

(** On files the parser does not raise on, the grouping returns, and its
    buckets hold exactly the files with a parsed date, under that date. *)
Lemma group_by_date_exact (video_files : list string) :
  (forall f, f ∈ video_files -> exists o, parse_date_from_filename f = Ok o) ->
  exists grouped, group_by_date video_files = Ok grouped /\
    NoDup (keys grouped) /\
    forall d f, in_bucket grouped d f <->
      f ∈ video_files /\ parse_date_from_filename f = Ok (Some d).
Proof.
  intros Hok. unfold group_by_date.
  destruct (group_loop video_files []) as [grouped|e] eqn:Hg.
  - exists grouped. split; [reflexivity|].
    apply group_loop_spec in Hg as [Hnd Hb]. split.
    + apply Hnd. constructor.
    + intros d f. rewrite Hb. split; [|auto].
      intros [Hnil|?]; [|assumption]. now apply in_bucket_nil in Hnil.
  - apply group_loop_raises in Hg as (f & Hin & Hf).
    destruct (Hok f Hin) as [o Ho]. congruence.
Qed.

Lemma group_by_date_ok (video_files : list string) (grouped : buckets) :
  group_by_date video_files = Ok grouped ->
  NoDup (keys grouped) /\
  forall d f, in_bucket grouped d f <->
    f ∈ video_files /\ parse_date_from_filename f = Ok (Some d).
Proof.
  intros Hg. apply group_loop_spec in Hg as [Hnd Hb]. split.
  - apply Hnd. constructor.
  - intros d f. rewrite Hb. split; [|auto].
    intros [Hnil|?]; [|assumption]. now apply in_bucket_nil in Hnil.
Qed.

(** ** The selection *)

Lemma dict_get_elem_of {V} (date : datetime) (d : list (datetime * V)) (v : V) :
  dict_get date d = Some v -> (date, v) ∈ d.
Proof.
  induction d as [|[k x] rest IH]; cbn; [discriminate|].
  destruct (decide (k = date)) as [->|Hne].
  - intros [= ->]. apply elem_of_cons; now left.
  - intros H. apply elem_of_cons; right. auto.
Qed.

Lemma select_loop_elem_of (rand : nat -> nat) (grouped : buckets) :
  forall k date v, (date, v) ∈ select_loop rand k grouped ->
    in_bucket grouped date v.
Proof.
  induction grouped as [|[d fs] rest IH]; cbn; intros k date v H.
  - now apply elem_of_nil in H.
  - unfold random_choice in H.
    destruct (fs !! (rand k mod length fs)%nat) as [x|] eqn:Hx.
    + apply elem_of_cons in H as [Heq|H].
      * injection Heq as -> ->. exists fs.
        split; [apply elem_of_cons; now left|].
        eapply list_elem_of_lookup_2; eauto.
      * apply IH in H as (fs' & Hin & Hv). exists fs'.
        split; [apply elem_of_cons; now right|assumption].
    + apply IH in H as (fs' & Hin & Hv). exists fs'.
      split; [apply elem_of_cons; now right|assumption].
Qed.

Lemma select_loop_keys (rand : nat -> nat) (grouped : buckets) :
  forall k, keys (select_loop rand k grouped) `sublist_of` keys grouped.
Proof.
  induction grouped as [|[d fs] rest IH]; cbn; intros k; [constructor|].
  destruct (random_choice (rand k) fs); cbn.
  - apply sublist_skip, IH.
  - apply sublist_cons, IH.
Qed.

(** One file per date, each from the bucket of its date. *)
Lemma select_one_per_day_spec (rand : nat -> nat) (grouped : buckets) :
  NoDup (keys grouped) ->
  NoDup (keys (select_one_per_day rand grouped)) /\
  forall date v, dict_get date (select_one_per_day rand grouped) = Some v ->
    in_bucket grouped date v.
Proof.
  intros Hnd. split.
  - exact (sublist_NoDup _ _ Hnd (select_loop_keys rand grouped O)).
  - intros date v H. eapply select_loop_elem_of, dict_get_elem_of, H.
Qed.

(** ** The extraction loop *)

Section Runs.

Variable json_loads : string -> result json.
Variable py_float : json -> result float.
Variable clip_path : nat -> datetime -> string.
Variable w : world.

Local Abbreviation render := (fun p : nat * datetime => clip_path (fst p) (snd p)).

Lemma extract_clip_run (input output : string) (duration : float)
    (start_time : Z) (s : state) :
  exists r,
    extract_clip w input output (Some duration) (Some start_time) s
    = ({| files := files s;
          trace := trace s ++ [Ffmpeg_extract input output duration start_time] |},
       r).
Proof.
  unfold extract_clip, try_except, mbind, io_bind, emit, lift; cbn.
  destruct (ffmpeg_extract w input output duration start_time) as [out|e]; cbn.
  - eexists; reflexivity.
  - destruct (isinstance e CalledProcessError); eexists; reflexivity.
Qed.

(** What the loop does from any point on: it leaves the files alone, adds
    extraction requests to the trace, and appends to the clip paths the
    clips of some of the remaining dates, in their order, each validated. *)
Lemma extract_loop_spec (selected_videos : list (datetime * string))
    (dates : list datetime) :
  forall i clip_paths s s' r,
    extract_loop json_loads py_float clip_path w selected_videos i dates
      clip_paths s = (s', r) ->
    files s' = files s /\
    (exists evs, trace s' = trace s ++ evs /\
       Forall (extract_request json_loads py_float w selected_videos) evs) /\
    forall paths, r = Ok paths ->
      exists picked : list (nat * datetime),
        paths = clip_paths ++ List.map render picked /\
        List.map snd picked `sublist_of` dates /\
        Forall (valid_clip json_loads py_float w) (List.map render picked).
Proof.
  induction dates as [|date rest IH]; intros i clip_paths s s' r H.
  - cbn in H. injection H as <- <-.
    split; [reflexivity|]. split.
    + exists []. split; [now rewrite app_nil_r|constructor].
    + intros paths [= <-]. exists []. cbn.
      split; [now rewrite app_nil_r|]. split; constructor.
  - cbn [extract_loop] in H. unfold mbind, io_bind in H. unfold lift at 1 in H.
    destruct (dict_get date selected_videos) as [video_path|] eqn:Hsel;
      [|injection H as <- <-; split; [reflexivity|]; split;
        [exists []; split; [now rewrite app_nil_r|constructor]|discriminate]].
    unfold lift at 1 in H.
    destruct (get_video_duration json_loads py_float
                (ffprobe_format w video_path)) as [d|e] eqn:Hdur;
      [|injection H as <- <-; split; [reflexivity|]; split;
        [exists []; split; [now rewrite app_nil_r|constructor]|discriminate]].
    destruct (extract_clip_run video_path (clip_path i date)
                (py_min clip_duration d) 0 s) as [rx Hx].
    rewrite Hx in H.
    assert (Hreq : extract_request json_loads py_float w selected_videos
              (Ffmpeg_extract video_path (clip_path i date)
                 (py_min clip_duration d) 0)).
    { exists date, d. auto. }
    set (s1 := {| files := files s;
                  trace := trace s ++ [Ffmpeg_extract video_path
                    (clip_path i date) (py_min clip_duration d) 0] |}) in *.
    assert (Hstep : forall acc,
      extract_loop json_loads py_float clip_path w selected_videos (S i) rest
        acc s1 = (s', r) ->
      (acc = clip_paths \/
       (acc = clip_paths ++ [clip_path i date] /\
        valid_clip json_loads py_float w (clip_path i date))) ->
      files s' = files s /\
      (exists evs, trace s' = trace s ++ evs /\
         Forall (extract_request json_loads py_float w selected_videos) evs) /\
      forall paths, r = Ok paths ->
        exists picked : list (nat * datetime),
          paths = clip_paths ++ List.map render picked /\
          List.map snd picked `sublist_of` date :: rest /\
          Forall (valid_clip json_loads py_float w) (List.map render picked)).
    { intros acc Hloop Hacc.
      apply IH in Hloop as (Hf & (evs & Ht & Hevs) & Hp).
      split; [exact Hf|]. split.
      - exists (Ffmpeg_extract video_path (clip_path i date)
                  (py_min clip_duration d) 0 :: evs).
        split; [rewrite Ht; cbn; now rewrite <- app_assoc|].
        constructor; assumption.
      - intros paths Hr. destruct (Hp paths Hr) as (picked & -> & Hsub & Hval).
        destruct Hacc as [->|[-> Hv]].
        + exists picked. split; [reflexivity|].
          split; [now apply sublist_cons|assumption].
        + exists ((i, date) :: picked). cbn.
          split; [now rewrite <- app_assoc|].
          split; [now apply sublist_skip|]. constructor; assumption. }
    destruct rx as [[|]|e].
    + unfold lift at 1 in H.
      destruct (validate_clip json_loads py_float
                  (ffprobe_streams w (clip_path i date))) as [[|]|e] eqn:Hv.
      * eapply Hstep; [exact H|]. right. split; [reflexivity|exact Hv].
      * eapply Hstep; [exact H|]. now left.
      * injection H as <- <-. split; [reflexivity|]. split; [|discriminate].
        eexists. split; [reflexivity|]. constructor; [assumption|constructor].
    + eapply Hstep; [exact H|]. now left.
    + injection H as <- <-. split; [reflexivity|]. split; [|discriminate].
      eexists. split; [reflexivity|]. constructor; [assumption|constructor].
Qed.

End Runs.

(** ** Runs of [main] *)

Section Main.

Variable json_loads : string -> result json.
Variable py_float : json -> result float.
Variable clip_path : nat -> datetime -> string.
Variable w : world.

Local Abbreviation render := (fun p : nat * datetime => clip_path (fst p) (snd p)).
Local Abbreviation main' := (main json_loads py_float clip_path w).
Local Abbreviation collect' := (collect json_loads py_float w clip_path).

Lemma preflight_run (s : state) : exists r, preflight w s = (s, r).
Proof.
  unfold preflight, try_except, mbind, io_bind, lift, mret, io_ret.
  destruct (ffmpeg_version w) as [o1|e1]; cbn.
  - destruct (ffprobe_version w) as [o2|e2]; cbn; [eauto|].
    destruct (_ || _); eauto.
  - destruct (_ || _); eauto.
Qed.

(** [main] is [collect] followed by [finish]. *)
Lemma main_collect (s : state) :
  main' s = (x ← collect'; finish w x) s.
Proof.
  unfold main, collect, finish, mbind, io_bind, mret, io_ret.
  destruct (preflight_run s) as [[tools|e] ->]; [|reflexivity].
  destruct tools; cbn; [|reflexivity].
  unfold lift.
  destruct (get_video_files (iterdir w)) as [[|v vs]|e]; [reflexivity| |reflexivity].
  destruct (group_by_date (v :: vs)) as [grouped|e]; [|reflexivity].
  destruct (extract_loop _ _ _ _ _ _ _ _ s) as [s1 [[|p ps]|e]]; reflexivity.
Qed.

(** Up to the end of the loop a run leaves the files alone and only asks
    for extractions; the clip paths it collects are those of strictly
    increasing dates, each validated. *)
Lemma collect_spec (s s1 : state) (r : result (status + list string)) :
  collect' s = (s1, r) ->
  files s1 = files s /\
  (exists evs, trace s1 = trace s ++ evs /\
     Forall (main_request json_loads py_float w) evs) /\
  forall paths, r = Ok (inr paths) ->
    exists picked : list (nat * datetime),
      paths = List.map render picked /\
      StronglySorted date_lt (List.map snd picked) /\
      Forall (valid_clip json_loads py_float w) paths.
Proof.
  assert (Hstay : forall (x : result (status + list string)),
    (forall paths, x <> Ok (inr paths)) -> (s, x) = (s1, r) ->
    files s1 = files s /\
    (exists evs, trace s1 = trace s ++ evs /\
       Forall (main_request json_loads py_float w) evs) /\
    forall paths, r = Ok (inr paths) ->
      exists picked : list (nat * datetime),
        paths = List.map render picked /\
        StronglySorted date_lt (List.map snd picked) /\
        Forall (valid_clip json_loads py_float w) paths).
  { intros x Hx [= <- <-]. split; [reflexivity|]. split.
    - exists []. split; [now rewrite app_nil_r|constructor].
    - intros paths Hp. now apply Hx in Hp. }
  unfold collect, mbind, io_bind, mret, io_ret.
  destruct (preflight_run s) as [[tools|e] ->]; [|now apply Hstay].
  destruct tools; cbn; [|now apply Hstay].
  unfold lift.
  destruct (get_video_files (iterdir w)) as [[|v vs]|e] eqn:Hfiles;
    [now apply Hstay| |now apply Hstay].
  destruct (group_by_date (v :: vs)) as [grouped|e] eqn:Hgroup;
    [|now apply Hstay].
  destruct (extract_loop _ _ _ _ _ _ _ _ s) as [s2 r2] eqn:Hloop.
  apply extract_loop_spec in Hloop as (Hf & (evs & Ht & Hevs) & Hp).
  apply group_by_date_ok in Hgroup as Hg. destruct Hg as [Hnd _].
  destruct (select_one_per_day_spec (rand w) grouped Hnd) as [Hsel _].
  intros H.
  assert (Hs : s2 = s1) by (destruct r2; congruence). subst s2.
  split; [exact Hf|]. split.
  - exists evs. split; [exact Ht|].
    eapply Forall_impl; [exact Hevs|]. intros ev Hev.
    exists (v :: vs), grouped. auto.
  - intros paths ->. destruct r2 as [paths2|e]; [|discriminate].
    injection H as <-.
    destruct (Hp paths2 eq_refl) as (picked & -> & Hsub & Hval).
    exists picked. split; [reflexivity|]. split; [|exact Hval].
    eapply sublist_strict; [exact Hsub|].
    now apply sorted_dates_strict.
Qed.

(** The Concatenator logs its call, then at most the start of its tool. *)
Lemma concatenate_videos_run (clip_paths : list string) (output_path : string)
    (s s' : state) (r : result bool) :
  concatenate_videos w clip_paths output_path s = (s', r) ->
  exists tail,
    trace s' = trace s ++ Call_concatenate clip_paths output_path :: tail /\
    Forall (fun ev => exists m, ev = Ffmpeg_concat m output_path) tail.
Proof.
  unfold concatenate_videos, create_concat_file, try_finally, try_except,
    unlink, create_file, mbind, io_bind, mret, io_ret, emit, lift; cbn.
  destruct (named_temporary_file w) as [name|e]; cbn.
  - destruct (write_text w name (manifest_text clip_paths)) as [[]|e]; cbn.
    + destruct (ffmpeg_concat w name output_path) as [out|e]; cbn.
      * rewrite lookup_insert_eq; cbn. intros [= <- <-]; cbn.
        eexists. rewrite <- app_assoc. split; [reflexivity|].
        constructor; [eauto|constructor].
      * destruct (isinstance e CalledProcessError); cbn;
          rewrite ?lookup_insert_eq; cbn; intros [= <- <-]; cbn;
          eexists; rewrite <- app_assoc; (split; [reflexivity|]);
          (constructor; [eauto|constructor]).
    + intros [= <- <-]; cbn. exists []. split; [reflexivity|constructor].
  - intros [= <- <-]; cbn. exists []. split; [reflexivity|constructor].
Qed.

(** A run, split at the end of the extraction loop. *)
Lemma main_run (s s' : state) (r : result status) :
  main' s = (s', r) ->
  exists s1 r1, collect' s = (s1, r1) /\
    match r1 with
    | Raise e => s' = s1 /\ r = Raise e
    | Ok (inl st) => s' = s1 /\ r = Ok st /\ st <> No_clips /\
                     (forall n, st <> Compiled n)
    | Ok (inr []) => s' = s1 /\ r = Ok No_clips
    | Ok (inr (p :: ps)) =>
        r <> Ok No_clips /\
        (forall n, r = Ok (Compiled n) -> n = length (p :: ps)) /\
        exists tail,
          trace s' = trace s1 ++ Call_concatenate (p :: ps) output_file :: tail /\
          Forall (fun ev => exists m, ev = Ffmpeg_concat m output_file) tail
    end.
Proof.
  rewrite main_collect. unfold mbind at 1, io_bind at 1.
  destruct (collect' s) as [s1 r1] eqn:Hc. intros H.
  exists s1, r1. split; [reflexivity|].
  destruct r1 as [[st|[|p ps]]|e]; cbn in H.
  - injection H as <- <-. repeat split; try reflexivity.
    + intros ->.
      revert Hc. unfold collect, mbind, io_bind, mret, io_ret.
      destruct (preflight_run s) as [[tools|e] ->]; [|discriminate].
      destruct tools; cbn; [|discriminate]. unfold lift.
      destruct (get_video_files (iterdir w)) as [[|v vs]|e];
        [discriminate| |discriminate].
      destruct (group_by_date (v :: vs)); [|discriminate].
      destruct (extract_loop _ _ _ _ _ _ _ _ s) as [s2 [?|?]]; discriminate.
    + intros n ->.
      revert Hc. unfold collect, mbind, io_bind, mret, io_ret.
      destruct (preflight_run s) as [[tools|e] ->]; [|discriminate].
      destruct tools; cbn; [|discriminate]. unfold lift.
      destruct (get_video_files (iterdir w)) as [[|v vs]|e];
        [discriminate| |discriminate].
      destruct (group_by_date (v :: vs)); [|discriminate].
      destruct (extract_loop _ _ _ _ _ _ _ _ s) as [s2 [?|?]]; discriminate.
  - injection H as <- <-. auto.
  - unfold mbind, io_bind in H.
    destruct (concatenate_videos w (p :: ps) output_file s1) as [s2 rc] eqn:Hcat.
    apply concatenate_videos_run in Hcat as (tail & Ht & Htail).
    destruct rc as [[|]|e]; injection H as <- <-;
      (split; [discriminate|]);
      (split; [intros n Hn; try discriminate; now injection Hn as <-|]);
      exists tail; auto.
  - injection H as <- <-. auto.
Qed.

(** The trace of a run from the initial state: extraction requests, then at
    most one call of the Concatenator, on validated clips of strictly
    increasing dates, followed by the start of its tool. *)
Lemma main_trace (s' : state) (r : result status) :
  main' initial = (s', r) ->
  exists evs rest,
    trace s' = evs ++ rest /\
    Forall (main_request json_loads py_float w) evs /\
    (rest = [] /\ (forall n, r <> Ok (Compiled n)) \/
     exists (picked : list (nat * datetime)) tail,
       rest = Call_concatenate (List.map render picked) output_file :: tail /\
       Forall (fun ev => exists m, ev = Ffmpeg_concat m output_file) tail /\
       (forall n, r = Ok (Compiled n) -> n = length picked) /\
       StronglySorted date_lt (List.map snd picked) /\
       Forall (valid_clip json_loads py_float w) (List.map render picked)).
Proof.
  intros H. apply main_run in H as (s1 & r1 & Hc & Hr).
  apply collect_spec in Hc as (_ & (evs & Ht & Hevs) & Hp). cbn in Ht.
  exists evs.
  destruct r1 as [[st|[|p ps]]|e].
  - destruct Hr as (-> & -> & _ & Hn). exists []. rewrite app_nil_r.
    split; [exact Ht|]. split; [exact Hevs|]. left. split; [reflexivity|].
    intros n [= ->]. now apply (Hn n).
  - destruct Hr as (-> & ->). exists []. rewrite app_nil_r.
    split; [exact Ht|]. split; [exact Hevs|]. left. split; [reflexivity|].
    discriminate.
  - destruct Hr as (_ & Hn & tail & Htr & Htail).
    destruct (Hp (p :: ps) eq_refl) as (picked & Hpk & Hsorted & Hvalid).
    exists (Call_concatenate (p :: ps) output_file :: tail).
    split; [now rewrite Htr, Ht|]. split; [exact Hevs|]. right.
    exists picked, tail. rewrite <- Hpk.
    split; [reflexivity|]. split; [exact Htail|]. split; [|auto].
    intros n Hc. rewrite (Hn n Hc), Hpk. now rewrite length_map.
  - destruct Hr as (-> & ->). exists []. rewrite app_nil_r.
    split; [exact Ht|]. split; [exact Hevs|]. left. split; [reflexivity|].
    discriminate.
Qed.

(** The Concatenator is called with nothing but such a list. *)
Lemma main_concat_input (s' : state) (r : result status)
    (paths : list string) (out : string) :
  main' initial = (s', r) ->
  Call_concatenate paths out ∈ trace s' ->
  out = output_file /\
  exists picked : list (nat * datetime),
    paths = List.map render picked /\
    StronglySorted date_lt (List.map snd picked) /\
    Forall (valid_clip json_loads py_float w) paths.
Proof.
  intros H Hin.
  apply main_trace in H as (evs & rest & Ht & Hevs & Hrest).
  rewrite Ht in Hin. apply elem_of_app in Hin as [Hin|Hin].
  - rewrite Forall_forall in Hevs. apply Hevs in Hin.
    destruct Hin as (? & ? & _ & _ & []).
  - destruct Hrest as [[-> _]|(picked & tail & -> & Htail & _ & Hs & Hv)].
    + now apply elem_of_nil in Hin.
    + apply elem_of_cons in Hin as [Heq|Hin].
      * injection Heq as -> ->. split; [reflexivity|]. exists picked. auto.
      * rewrite Forall_forall in Htail. apply Htail in Hin as [m Hm].
        discriminate.
Qed.

(** Every extraction of a run is a request of [main]. *)
Lemma main_extract_input (s' : state) (r : result status) (ev : event) :
  main' initial = (s', r) ->
  ev ∈ trace s' -> is_extract ev = true ->
  main_request json_loads py_float w ev.
Proof.
  intros H Hin Hex.
  apply main_trace in H as (evs & rest & Ht & Hevs & Hrest).
  rewrite Ht in Hin. apply elem_of_app in Hin as [Hin|Hin].
  - rewrite Forall_forall in Hevs. auto.
  - destruct Hrest as [[-> _]|(picked & tail & -> & Htail & _)].
    + now apply elem_of_nil in Hin.
    + apply elem_of_cons in Hin as [->|Hin]; [discriminate|].
      rewrite Forall_forall in Htail. apply Htail in Hin as [m ->].
      discriminate.
Qed.

(** C1.  In every run that reports a compiled video, the Concatenator was
    called once, with the clips of strictly increasing dates (so sorted
    ascending, no date twice), and every clip it was handed had passed
    validation. *)
Theorem concatenated_clips_increasing_and_valid (s' : state) (n : nat) :
  main' initial = (s', Ok (Compiled n)) ->
  exists picked : list (nat * datetime),
    length picked = n /\
    Call_concatenate (List.map render picked) output_file ∈ trace s' /\
    (forall paths out, Call_concatenate paths out ∈ trace s' ->
       paths = List.map render picked /\ out = output_file) /\
    StronglySorted date_lt (List.map snd picked) /\
    NoDup (List.map snd picked) /\
    Forall (valid_clip json_loads py_float w) (List.map render picked).
Proof.
  intros H.
  destruct (main_trace _ _ H) as (evs & rest & Ht & Hevs & Hrest).
  destruct Hrest as [[_ Hn]|(picked & tail & -> & Htail & Hn & Hs & Hv)].
  { now destruct (Hn n). }
  exists picked.
  split; [symmetry; now apply Hn|].
  split; [rewrite Ht; apply elem_of_app; right; apply elem_of_cons; now left|].
  split; [|split; [exact Hs|split; [|exact Hv]]].
  - intros paths out Hin. rewrite Ht in Hin.
    apply elem_of_app in Hin as [Hin|Hin].
    + rewrite Forall_forall in Hevs. apply Hevs in Hin.
      destruct Hin as (? & ? & _ & _ & []).
    + apply elem_of_cons in Hin as [Heq|Hin].
      * injection Heq as -> ->. auto.
      * rewrite Forall_forall in Htail. apply Htail in Hin as [m Hm].
        discriminate.
  - clear -Hs. induction Hs as [|x l Hl IH Hall]; constructor; [|exact IH].
    intros Hx. rewrite Forall_forall in Hall. apply Hall in Hx.
    now apply date_lt_irrefl in Hx.
Qed.

(** C5.  A run whose list of surviving clip paths is empty ends with the
    report that no clip was extracted; its trace holds neither a call of
    the Concatenator nor a start of its tool, which alone writes the output
    file, and no manifest was created. *)
Theorem no_surviving_clip_ends_run (s1 : state) :
  collect' initial = (s1, Ok (inr [])) ->
  main' initial = (s1, Ok No_clips) /\
  Forall (fun ev => is_concat ev = false) (trace s1) /\
  files s1 = ∅.
Proof.
  intros Hc. split; [|split].
  - rewrite main_collect. unfold mbind, io_bind. now rewrite Hc.
  - apply collect_spec in Hc as (_ & (evs & Ht & Hevs) & _).
    cbn in Ht. rewrite Ht.
    eapply Forall_impl; [exact Hevs|].
    intros [] (? & ? & _ & _ & Hreq); cbn in Hreq; [reflexivity| |];
      contradiction.
  - apply collect_spec in Hc as (Hf & _). exact Hf.
Qed.

(** The duration probe returns the duration it read, or its fallback of
    10 seconds on the exceptions it handles. *)
Lemma get_video_duration_cases (run : completed) (d : float) :
  get_video_duration json_loads py_float run = Ok d ->
  duration_body json_loads py_float run = Ok d \/
  exists e, duration_body json_loads py_float run = Raise e /\
    caught_by [CalledProcessError; KeyError; ValueError] e = true /\
    d = f10_0.
Proof.
  unfold get_video_duration.
  destruct (duration_body json_loads py_float run) as [x|e]; [intros [= ->]; now left|].
  destruct (caught_by _ e) eqn:Hc; [|discriminate].
  intros [= <-]. right. exists e. auto.
Qed.

(** C6, amended.  Every extraction request of a run starts at offset 0 and
    asks for the smaller of the target duration and what the duration probe
    returned: the duration read from the source when the probe succeeds,
    and otherwise its fallback of 10 seconds, so that the request is then
    the whole target duration.  The request never exceeds the target nor
    the duration the probe returned. *)
Theorem requested_duration_is_clamped (s' : state) (r : result status)
    (input output : string) (duration : float) (start_time : Z) :
  main' initial = (s', r) ->
  Ffmpeg_extract input output duration start_time ∈ trace s' ->
  start_time = 0 /\
  exists d,
    get_video_duration json_loads py_float (ffprobe_format w input) = Ok d /\
    duration = py_min clip_duration d /\
    flt clip_duration duration = false /\
    flt d duration = false /\
    (duration_body json_loads py_float (ffprobe_format w input) = Ok d \/
     (exists e,
        duration_body json_loads py_float (ffprobe_format w input) = Raise e) /\
     d = f10_0 /\ duration = clip_duration).
Proof.
  intros H Hin.
  destruct (main_extract_input _ _ _ H Hin eq_refl)
    as (vf & grouped & _ & _ & date & d & _ & Hd & -> & ->).
  split; [reflexivity|]. exists d.
  destruct (py_min_spec clip_duration d) as (_ & Hc & Hdd).
  repeat (split; [assumption || reflexivity|]).
  apply get_video_duration_cases in Hd as [Hok|(e & He & _ & ->)];
    [now left|right].
  split; [now exists e|]. split; reflexivity.
Qed.

End Main.

(** C6, as stated, fails: where the duration probe cannot read the source
    files, extraction requests are made although no duration of the source
    was obtained. *)
Lemma requested_duration_without_probed_duration :
  ~ (forall input output duration start_time,
       Ffmpeg_extract input output duration start_time
         ∈ trace (fst (run_main probe_fails_world)) ->
       exists d,
         duration_body sample_loads sample_float
           (ffprobe_format probe_fails_world input) = Ok d /\
         duration = py_min clip_duration d).
Proof.
  intros H.
  destruct (H "2024-01-01_b-main.mp4" "/tmp/run/clip_0000_20240101.mp4" f1_4 0)
    as (d & Hd & _).
  - vm_compute. apply elem_of_cons. now left.
  - discriminate.
Qed.

Lemma concatenated_clips_increasing_and_valid_witness :
  exists picked : list (nat * datetime),
    length picked = 2%nat /\
    Call_concatenate
      (List.map (fun p => sample_clip_path (fst p) (snd p)) picked) output_file
      ∈ trace (fst (run_main sample_world)) /\
    (forall paths out,
       Call_concatenate paths out ∈ trace (fst (run_main sample_world)) ->
       paths = List.map (fun p => sample_clip_path (fst p) (snd p)) picked /\
       out = output_file) /\
    StronglySorted date_lt (List.map snd picked) /\
    NoDup (List.map snd picked) /\
    Forall (valid_clip sample_loads sample_float sample_world)
      (List.map (fun p => sample_clip_path (fst p) (snd p)) picked).
Proof.
  apply (concatenated_clips_increasing_and_valid sample_loads sample_float
           sample_clip_path sample_world (fst (run_main sample_world)) 2).
  vm_compute. reflexivity.
Defined.

Lemma no_surviving_clip_ends_run_witness :
  main sample_loads sample_float sample_clip_path no_survivor_world initial
  = (fst (run_main no_survivor_world), Ok No_clips) /\
  Forall (fun ev => is_concat ev = false) (trace (fst (run_main no_survivor_world))) /\
  files (fst (run_main no_survivor_world)) = ∅.
Proof.
  apply (no_surviving_clip_ends_run sample_loads sample_float sample_clip_path
           no_survivor_world (fst (run_main no_survivor_world))).
  vm_compute. reflexivity.
Defined.

Lemma requested_duration_is_clamped_witness :
  0 = 0 /\
  exists d,
    get_video_duration sample_loads sample_float
      (ffprobe_format sample_world "2024-01-03_c-main.mp4") = Ok d /\
    f1_4 = py_min clip_duration d /\
    flt clip_duration f1_4 = false /\
    flt d f1_4 = false /\
    (duration_body sample_loads sample_float
       (ffprobe_format sample_world "2024-01-03_c-main.mp4") = Ok d \/
     (exists e,
        duration_body sample_loads sample_float
          (ffprobe_format sample_world "2024-01-03_c-main.mp4") = Raise e) /\
     d = f10_0 /\ f1_4 = clip_duration).
Proof.
  apply (requested_duration_is_clamped sample_loads sample_float
           sample_clip_path sample_world (fst (run_main sample_world))
           (snd (run_main sample_world))
           "2024-01-03_c-main.mp4" "/tmp/run/clip_0001_20240103.mp4" f1_4 0).
  - vm_compute. reflexivity.
  - vm_compute. apply elem_of_cons. right. apply elem_of_cons. now left.
Defined.

(** ** The classification of a clip *)

Lemma eq_str_video_not_audio (v : json) :
  eq_str v "video" = true -> eq_str v "audio" = false.
Proof.
  destruct v; try discriminate. cbn. intros H.
  apply String.eqb_eq in H. now subst.
Qed.

(** Over stream objects, the loop computes the two flags. *)
Lemma streams_loop_dicts (streams : list json) :
  forallb is_dict streams = true ->
  forall has_video has_audio,
    streams_loop streams has_video has_audio
    = Ok (has_video || shows_stream "video" streams,
          has_audio || shows_stream "audio" streams).
Proof.
  induction streams as [|stream rest IH]; intros Hd has_video has_audio.
  - cbn. now rewrite !orb_false_r.
  - cbn in Hd. apply andb_true_iff in Hd as [Hs Hrest].
    destruct stream as [| | | | | |d]; try discriminate.
    cbn [streams_loop py_get]. unfold mbind, result_bind.
    unfold shows_stream. cbn [existsb has_codec_type].
    fold (shows_stream "video" rest). fold (shows_stream "audio" rest).
    destruct (assoc "codec_type" d) as [v|]; cbn [from_option id].
    + destruct (eq_str v "video") eqn:Hv.
      * rewrite (eq_str_video_not_audio v Hv), (IH Hrest). cbn.
        now rewrite orb_true_r.
      * destruct (eq_str v "audio") eqn:Ha; rewrite (IH Hrest); cbn;
          now rewrite ?orb_true_r.
    + cbn. now rewrite (IH Hrest).
Qed.

Lemma probed_duration_shown (py_float : json -> result float)
    (d : list (string * json)) (duration : option float) :
  shown_duration py_float d = Some duration ->
  probed_duration py_float (JDict d) = Ok duration.
Proof.
  unfold shown_duration, probed_duration, mbind, result_bind. cbn.
  destruct (assoc "format" d) as [fmt|] eqn:Hf; cbn.
  - destruct fmt as [| | | | | |f]; try discriminate. cbn.
    destruct (assoc "duration" f) as [x|] eqn:Hx; cbn.
    + destruct (py_float x) as [v|e]; [|discriminate]. now intros [= <-].
    + now intros [= <-].
  - now intros [= <-].
Qed.

Lemma classify_false (has_video has_audio : bool) (duration : option float) :
  classify has_video has_audio duration = false <->
  has_video = false \/ has_audio = false \/ duration = None \/
  exists v, duration = Some v /\ flt v f0_5 = true.
Proof.
  unfold classify.
  destruct has_video, has_audio; cbn; try (split; [auto|reflexivity]).
  destruct duration as [v|]; [|split; [auto|reflexivity]].
  destruct (flt v f0_5) eqn:Hv.
  - split; [|reflexivity]. intros _. right. right. right. now exists v.
  - split; [discriminate|].
    intros [?|[?|[?|(v' & [= <-] & H)]]]; congruence.
Qed.

(** On the document of a completed probe the validator returns the
    classification, without an exception. *)
Lemma validate_clip_document (json_loads : string -> result json)
    (py_float : json -> result float) (stdout : string)
    (d : list (string * json)) (streams : list json) (duration : option float) :
  json_loads stdout = Ok (JDict d) ->
  shown_streams d = Some streams ->
  shown_duration py_float d = Some duration ->
  validate_clip json_loads py_float (Ok stdout)
  = Ok (classify (shows_stream "video" streams) (shows_stream "audio" streams)
          duration).
Proof.
  intros Hl Hs Hd.
  unfold validate_clip, validate_body, validate_data, mbind, result_bind.
  rewrite Hl. cbn [py_get].
  unfold shown_streams in Hs.
  destruct (assoc "streams" d) as [v|]; cbn [from_option id].
  - destruct v as [| | | | |l|]; try discriminate.
    destruct (forallb is_dict l) eqn:Hall; [|discriminate].
    injection Hs as <-. cbn [py_iter].
    rewrite (streams_loop_dicts l Hall), (probed_duration_shown _ _ _ Hd).
    reflexivity.
  - injection Hs as <-. cbn [py_iter streams_loop].
    rewrite (probed_duration_shown _ _ _ Hd). reflexivity.
Qed.

(** C3.  For a clip whose probe completed with a document, the validator
    answers "invalid" exactly when the document shows no video stream, or
    no audio stream, or no duration, or a duration below 0.5 seconds, and
    "valid" otherwise; a clip it answers "invalid" for is in no list handed
    to the Concatenator. *)
Theorem validate_clip_classifies (json_loads : string -> result json)
    (py_float : json -> result float) (clip_path : nat -> datetime -> string)
    (w : world) (clip stdout : string) (d : list (string * json))
    (streams : list json) (duration : option float)
    (s' : state) (r : result status) :
  ffprobe_streams w clip = Ok stdout ->
  json_loads stdout = Ok (JDict d) ->
  shown_streams d = Some streams ->
  shown_duration py_float d = Some duration ->
  main json_loads py_float clip_path w initial = (s', r) ->
  let invalid :=
    shows_stream "video" streams = false \/
    shows_stream "audio" streams = false \/
    duration = None \/
    exists v, duration = Some v /\ flt v f0_5 = true in
  (validate_clip json_loads py_float (ffprobe_streams w clip) = Ok false
   <-> invalid) /\
  (validate_clip json_loads py_float (ffprobe_streams w clip) = Ok true
   <-> ~ invalid) /\
  (invalid ->
   forall paths out, Call_concatenate paths out ∈ trace s' -> clip ∉ paths).
Proof.
  intros Hp Hl Hs Hd Hmain invalid.
  pose proof (validate_clip_document _ _ _ _ _ _ Hl Hs Hd) as Hv.
  rewrite Hp, Hv.
  pose proof (classify_false (shows_stream "video" streams)
                (shows_stream "audio" streams) duration) as Hc.
  fold invalid in Hc.
  assert (Hfalse : Ok (classify (shows_stream "video" streams)
                         (shows_stream "audio" streams) duration)
                   = @Ok bool false <-> invalid).
  { rewrite <- Hc. split; [now intros [= ->]|now intros ->]. }
  split; [exact Hfalse|]. split.
  - destruct (classify _ _ _) eqn:Hcl.
    + split; [|reflexivity]. intros _ Hi. apply Hc in Hi. discriminate.
    + split; [discriminate|]. intros Hi. destruct Hi. now apply Hc.
  - intros Hi paths out Hin Hclip.
    destruct (main_concat_input _ _ _ _ _ _ _ _ Hmain Hin) as (_ & _ & _ & _ & Hvalid).
    rewrite Forall_forall in Hvalid. apply Hvalid in Hclip.
    unfold valid_clip in Hclip. rewrite Hp, Hv in Hclip.
    apply Hc in Hi. congruence.
Qed.

Lemma validate_clip_classifies_witness :
  let clip := "/tmp/run/clip_0000_20240101.mp4" in
  let streams := [JDict [("codec_type", JStr "video")];
                  JDict [("codec_type", JStr "audio")]] in
  let duration := Some f1_4 in
  let s' := fst (run_main sample_world) in
  let invalid :=
    shows_stream "video" streams = false \/
    shows_stream "audio" streams = false \/
    duration = None \/
    exists v, duration = Some v /\ flt v f0_5 = true in
  (validate_clip sample_loads sample_float (ffprobe_streams sample_world clip)
   = Ok false <-> invalid) /\
  (validate_clip sample_loads sample_float (ffprobe_streams sample_world clip)
   = Ok true <-> ~ invalid) /\
  (invalid ->
   forall paths out, Call_concatenate paths out ∈ trace s' -> clip ∉ paths).
Proof.
  apply (validate_clip_classifies sample_loads sample_float sample_clip_path
           sample_world "/tmp/run/clip_0000_20240101.mp4" "clip"
           [("streams", JList [JDict [("codec_type", JStr "video")];
                               JDict [("codec_type", JStr "audio")]]);
            ("format", JDict [("duration", JStr "1.400000")])]
           _ _ (fst (run_main sample_world)) (snd (run_main sample_world)));
    vm_compute; reflexivity.
Defined.

(** ** Extensions in capital letters *)

Lemma lower_char_inv (c : ascii) :
  (lower_char c = "."%char -> c = "."%char) /\
  (lower_char c = "m"%char -> c = "m"%char \/ c = "M"%char) /\
  (lower_char c = "p"%char -> c = "p"%char \/ c = "P"%char) /\
  (lower_char c = "4"%char -> c = "4"%char).
Proof.
  destruct c as [[] [] [] [] [] [] [] []]; vm_compute;
    repeat split; intros H; try discriminate H; auto.
Qed.

Lemma case_variant_cases (ext : string) :
  case_variant ext -> ext = ".mP4" \/ ext = ".Mp4" \/ ext = ".MP4".
Proof.
  intros [Hl Hne].
  destruct ext as [|a [|b [|c [|d [|? ?]]]]]; try discriminate Hl.
  cbn in Hl. injection Hl as Ha Hb Hc Hd.
  apply lower_char_inv in Ha, Hd. subst a d.
  apply lower_char_inv in Hb, Hc.
  destruct Hb as [->| ->], Hc as [->| ->]; auto. contradiction.
Qed.

Ltac each_variant H :=
  apply case_variant_cases in H; destruct H as [->|[->| ->]].

Ltac by_stem s IH :=
  induction s as [|? s IH]; rewrite ?append_nil, ?append_cons; cbn;
  [reflexivity|now rewrite IH].

Lemma length_variant (ext s : string) :
  case_variant ext -> String.length (s +:+ ext) = (String.length s + 4)%nat.
Proof. intros H. each_variant H; by_stem s IH. Qed.

Lemma rfind_dot_variant (ext s : string) :
  case_variant ext -> rfind_dot (s +:+ ext) = Some (String.length s).
Proof. intros H. each_variant H; by_stem s IH. Qed.

Lemma substring_variant (ext s : string) :
  case_variant ext -> String.substring (String.length s) 4 (s +:+ ext) = ext.
Proof. intros H. each_variant H; by_stem s IH. Qed.

(** The Corpus Scanner keeps such a file. *)
Lemma is_video_file_variant (ext stem : string) :
  case_variant ext -> stem <> EmptyString ->
  is_video_file (stem +:+ ext) = true.
Proof.
  intros H Hne. unfold is_video_file, suffix.
  rewrite (rfind_dot_variant ext stem H), (length_variant ext stem H).
  replace (String.length stem + 4 - String.length stem)%nat with 4%nat by lia.
  rewrite (substring_variant ext stem H).
  destruct stem as [|c stem]; [contradiction|]. cbn [String.length].
  replace (Nat.ltb 0 (S (String.length stem))) with true
    by (symmetry; apply Nat.ltb_lt; lia).
  replace (Nat.ltb (S (String.length stem)) (S (String.length stem) + 4 - 1))
    with true by (symmetry; apply Nat.ltb_lt; lia).
  cbn [andb]. destruct H as [-> _]. reflexivity.
Qed.

Ltac split_tests :=
  repeat match goal with
         | |- context [ascii_eqb ?a ?b] =>
             first [is_var a | is_var b]; destruct (ascii_eqb a b)
         | |- context [is_newline ?b] => is_var b; destruct (is_newline b)
         end.

Lemma mp4_end_variant (ext s : string) (c : ascii) :
  case_variant ext -> re_mp4_end (String c (s +:+ ext)) = false.
Proof.
  intros H. each_variant H;
    destruct s as [|c1 [|c2 [|c3 [|c4 [|c5 s]]]]];
    rewrite ?append_nil, ?append_cons; unfold re_mp4_end, re_end;
    split_tests; reflexivity.
Qed.

Lemma dot_star_variant (ext s : string) :
  case_variant ext -> re_dot_star re_mp4_end (s +:+ ext) = false.
Proof.
  intros H. induction s as [|c s IH].
  - each_variant H; reflexivity.
  - rewrite append_cons. cbn [re_dot_star].
    rewrite IH, andb_false_r. cbn [orb].
    rewrite <- append_cons. destruct s; apply (mp4_end_variant ext _ c H).
Qed.

Lemma re_digits_variant (ext : string) (n : nat) :
  case_variant ext ->
  forall s g r, re_digits n (s +:+ ext) = Some (g, r) ->
    exists s', r = s' +:+ ext.
Proof.
  intros H. induction n as [|n IH]; intros s g r Hm.
  - injection Hm as _ <-. now exists s.
  - destruct s as [|c s].
    + each_variant H; discriminate Hm.
    + rewrite append_cons in Hm. cbn [re_digits] in Hm.
      destruct (is_digit c); [|discriminate].
      destruct (re_digits n (s +:+ ext)) as [[g' r']|] eqn:Hn; [|discriminate].
      injection Hm as _ <-. eapply IH, Hn.
Qed.

Lemma re_char_variant (ext : string) (c : ascii) :
  case_variant ext -> ascii_eqb c "." = false ->
  forall s r, re_char c (s +:+ ext) = Some r -> exists s', r = s' +:+ ext.
Proof.
  intros H Hc s r Hm. destruct s as [|c' s].
  - each_variant H; rewrite append_nil in Hm; cbn [re_char] in Hm;
      rewrite Hc in Hm; discriminate.
  - rewrite append_cons in Hm. cbn [re_char] in Hm.
    destruct (ascii_eqb c c'); [|discriminate].
    injection Hm as <-. now exists s.
Qed.

(** The regular expression, which ends in a lowercase [\.mp4], rejects a
    name with such an extension. *)
Lemma re_match_variant (ext s : string) :
  case_variant ext -> re_match_filename (s +:+ ext) = None.
Proof.
  intros H. unfold re_match_filename.
  destruct (re_digits 4 (s +:+ ext)) as [[y r1]|] eqn:H1; [|reflexivity].
  apply (re_digits_variant ext 4 H) in H1 as [s1 ->].
  destruct (re_char "-" (s1 +:+ ext)) as [r2|] eqn:H2; [|reflexivity].
  apply (re_char_variant ext "-" H eq_refl) in H2 as [s2 ->].
  destruct (re_digits 2 (s2 +:+ ext)) as [[m r3]|] eqn:H3; [|reflexivity].
  apply (re_digits_variant ext 2 H) in H3 as [s3 ->].
  destruct (re_char "-" (s3 +:+ ext)) as [r4|] eqn:H4; [|reflexivity].
  apply (re_char_variant ext "-" H eq_refl) in H4 as [s4 ->].
  destruct (re_digits 2 (s4 +:+ ext)) as [[d r5]|] eqn:H5; [|reflexivity].
  apply (re_digits_variant ext 2 H) in H5 as [s5 ->].
  destruct (re_char "_" (s5 +:+ ext)) as [r6|] eqn:H6; [|reflexivity].
  apply (re_char_variant ext "_" H eq_refl) in H6 as [s6 ->].
  now rewrite (dot_star_variant ext s6 H).
Qed.

(** C10.  A file whose extension is [.mp4] in another letter case is kept
    by the Corpus Scanner, gets "no date" from the parser, is in no bucket
    of any grouping, and is the source of no extraction request of a run:
    it contributes no clip. *)
Theorem capital_extension_is_scanned_and_never_used
    (json_loads : string -> result json) (py_float : json -> result float)
    (clip_path : nat -> datetime -> string) (w : world)
    (stem ext : string) (s' : state) (r : result status) :
  case_variant ext -> stem <> EmptyString ->
  main json_loads py_float clip_path w initial = (s', r) ->
  (forall names, stem +:+ ext ∈ names ->
     exists fs, get_video_files (Ok names) = Ok fs /\ stem +:+ ext ∈ fs) /\
  parse_date_from_filename (stem +:+ ext) = Ok None /\
  (forall video_files grouped date,
     group_by_date video_files = Ok grouped ->
     ~ in_bucket grouped date (stem +:+ ext)) /\
  (forall output duration start_time,
     Ffmpeg_extract (stem +:+ ext) output duration start_time ∉ trace s').
Proof.
  intros H Hne Hmain.
  assert (Hparse : parse_date_from_filename (stem +:+ ext) = Ok None)
    by (apply parse_date_no_match, re_match_variant, H).
  assert (Hbucket : forall video_files grouped date,
            group_by_date video_files = Ok grouped ->
            ~ in_bucket grouped date (stem +:+ ext)).
  { intros vf grouped date Hg Hin.
    apply (group_by_date_ok vf grouped Hg) in Hin as [_ Hp]. congruence. }
  split; [|split; [exact Hparse|split; [exact Hbucket|]]].
  - intros names Hin. eexists. split; [reflexivity|].
    apply list_elem_of_In, filter_In. split; [now apply list_elem_of_In|].
    now apply is_video_file_variant.
  - intros output duration start_time Hin.
    destruct (main_extract_input _ _ _ _ _ _ _ Hmain Hin eq_refl)
      as (vf & grouped & _ & Hg & date & d & Hsel & _).
    apply (Hbucket vf grouped date Hg).
    destruct (group_by_date_ok vf grouped Hg) as [Hnd _].
    now apply (select_one_per_day_spec (rand w) grouped Hnd).
Qed.

Lemma capital_extension_is_scanned_and_never_used_witness :
  (forall names, "2024-01-02_x" +:+ ".MP4" ∈ names ->
     exists fs, get_video_files (Ok names) = Ok fs /\
                "2024-01-02_x" +:+ ".MP4" ∈ fs) /\
  parse_date_from_filename ("2024-01-02_x" +:+ ".MP4") = Ok None /\
  (forall video_files grouped date,
     group_by_date video_files = Ok grouped ->
     ~ in_bucket grouped date ("2024-01-02_x" +:+ ".MP4")) /\
  (forall output duration start_time,
     Ffmpeg_extract ("2024-01-02_x" +:+ ".MP4") output duration start_time
       ∉ trace (fst (run_main capital_world))).
Proof.
  apply (capital_extension_is_scanned_and_never_used sample_loads sample_float
           sample_clip_path capital_world "2024-01-02_x" ".MP4"
           (fst (run_main capital_world)) (snd (run_main capital_world))).
  - split; [reflexivity|discriminate].
  - discriminate.
  - vm_compute. reflexivity.
Defined.

(** In that environment the file in capital letters is scanned and the run
    compiles the two other days. *)
Example capital_world_run :
  get_video_files (iterdir capital_world)
  = Ok ["2024-01-03_c-main.mp4"; "2024-01-02_x.MP4"; "2024-01-01_a-main.mp4"] /\
  snd (run_main capital_world) = Ok (Compiled 2) /\
  List.map (fun ev => match ev with
                      | Ffmpeg_extract input _ _ _ => input
                      | _ => EmptyString
                      end)
    (List.filter is_extract (trace (fst (run_main capital_world))))
  = ["2024-01-01_a-main.mp4"; "2024-01-03_c-main.mp4"].
Proof. repeat split; vm_compute; reflexivity. Qed.

(** * Further properties *)

(** ** The parser, in full *)

Lemma code_inj (a b : ascii) : code a = code b -> a = b.
Proof.
  unfold code. intros H. apply Znat.N2Z.inj in H.
  rewrite <- (ascii_N_embedding a), <- (ascii_N_embedding b). now rewrite H.
Qed.

Lemma ascii_eqb_eq (a b : ascii) : ascii_eqb a b = true -> a = b.
Proof. unfold ascii_eqb. intros H. apply code_inj. now apply Z.eqb_eq. Qed.






















(** ** The scanner *)

Lemma is_newline_eq (c : ascii) : is_newline c = true -> c = newline.
Proof. unfold is_newline. intros H. apply code_inj. now apply Z.eqb_eq. Qed.

Lemma re_mp4_end_inv (s : string) :
  re_mp4_end s = true -> s = ".mp4" \/ s = ".mp4" +:+ nl.
Proof.
  destruct s as [|c1 [|c2 [|c3 [|c4 r]]]]; try discriminate.
  cbn [re_mp4_end]. rewrite !andb_true_iff.
  intros ((((H1 & H2) & H3) & H4) & Hr).
  apply ascii_eqb_eq in H1, H2, H3, H4. subst.
  destruct r as [|c [|? ?]]; try discriminate Hr; [now left|].
  cbn in Hr. apply is_newline_eq in Hr as ->. now right.
Qed.

(** X3.  The rest of a name that [.*\.mp4$] accepts is a text without a
    newline followed by [.mp4], or by [.mp4] and one final newline. *)
Theorem dot_star_mp4_iff (rest : string) :
  re_dot_star re_mp4_end rest = true <->
  exists body, newline_free body = true /\
    (rest = body +:+ ".mp4" \/ rest = body +:+ ".mp4" +:+ nl).
Proof.
  split.
  - induction rest as [|c rest IH]; [discriminate|].
    cbn [re_dot_star]. intros [[Hc Hr]%andb_true_iff|He]%orb_true_iff.
    + destruct (IH Hr) as (body & Hb & Hrest).
      exists (String c body). cbn [newline_free]. rewrite Hc, Hb.
      split; [reflexivity|]. rewrite !append_cons.
      destruct Hrest as [->| ->]; auto.
    + exists EmptyString. split; [reflexivity|].
      rewrite !append_nil. now apply re_mp4_end_inv.
  - intros (body & Hb & [->| ->]); [now apply dot_star_mp4|].
    induction body as [|c body IH]; [reflexivity|].
    cbn [newline_free] in Hb. apply andb_true_iff in Hb as [Hc Hb].
    rewrite append_cons. cbn [re_dot_star]. now rewrite Hc, (IH Hb).
Qed.

(** *** The suffix of a name *)

Lemma length_append (s t : string) :
  String.length (s +:+ t) = (String.length s + String.length t)%nat.
Proof.
  induction s as [|c s IH]; [reflexivity|].
  rewrite append_cons. cbn. now rewrite IH.
Qed.

Lemma substring_all (s : string) : String.substring 0 (String.length s) s = s.
Proof. induction s as [|c s IH]; [reflexivity|]. cbn. now rewrite IH. Qed.

Lemma substring_append (s t : string) :
  String.substring (String.length s) (String.length t) (s +:+ t) = t.
Proof.
  induction s as [|c s IH]; [apply substring_all|].
  rewrite append_cons. cbn. exact IH.
Qed.

Lemma rfind_dot_append (s t : string) (i : nat) :
  rfind_dot t = Some i -> rfind_dot (s +:+ t) = Some (String.length s + i)%nat.
Proof.
  intros Ht. induction s as [|c s IH]; [exact Ht|].
  rewrite append_cons. cbn. now rewrite IH.
Qed.

Lemma rfind_dot_split (s : string) :
  forall i, rfind_dot s = Some i ->
    exists stem ext, s = stem +:+ ext /\ String.length stem = i /\
      String.substring i (String.length s - i) s = ext.
Proof.
  induction s as [|c s IH]; intros i H; [discriminate|].
  cbn [rfind_dot] in H. destruct (rfind_dot s) as [j|] eqn:Hj.
  - injection H as <-. destruct (IH j eq_refl) as (stem & ext & -> & Hl & Hs).
    exists (String c stem), ext. rewrite append_cons. cbn. auto.
  - destruct (ascii_eqb "." c); [|discriminate]. injection H as <-.
    exists EmptyString, (String c s). rewrite append_nil.
    split; [reflexivity|]. split; [reflexivity|].
    rewrite Nat.sub_0_r. apply substring_all.
Qed.

Lemma lower_mp4_cases (ext : string) :
  lower ext = ".mp4" ->
  ext = ".mp4" \/ ext = ".mP4" \/ ext = ".Mp4" \/ ext = ".MP4".
Proof.
  intros Hl.
  destruct ext as [|a [|b [|c [|d [|? ?]]]]]; try discriminate Hl.
  cbn in Hl. injection Hl as Ha Hb Hc Hd.
  apply lower_char_inv in Ha, Hd. subst a d.
  apply lower_char_inv in Hb, Hc.
  destruct Hb as [->| ->], Hc as [->| ->]; auto.
Qed.

Lemma suffix_stem_ext (stem ext : string) :
  lower ext = ".mp4" -> stem <> EmptyString -> suffix (stem +:+ ext) = ext.
Proof.
  intros Hl Hne.
  assert (Hd : rfind_dot ext = Some 0%nat /\ String.length ext = 4%nat).
  { destruct (lower_mp4_cases ext Hl) as [->|[->|[->| ->]]]; split; reflexivity. }
  destruct Hd as [Hd Hlen]. unfold suffix.
  rewrite (rfind_dot_append stem ext 0 Hd), length_append, Hlen, Nat.add_0_r.
  replace (String.length stem + 4 - String.length stem)%nat with 4%nat by lia.
  rewrite <- Hlen, substring_append, Hlen.
  destruct stem as [|c stem]; [contradiction|]. cbn [String.length].
  replace (Nat.ltb 0 (S (String.length stem))) with true
    by (symmetry; apply Nat.ltb_lt; lia).
  replace (Nat.ltb (S (String.length stem)) (S (String.length stem) + 4 - 1))
    with true by (symmetry; apply Nat.ltb_lt; lia).
  reflexivity.
Qed.

(** The test of the Corpus Scanner holds exactly for a non-empty stem
    followed by [.mp4] in any letter case. *)
Lemma is_video_file_iff (name : string) :
  is_video_file name = true <->
  exists stem ext,
    stem <> EmptyString /\ name = stem +:+ ext /\ lower ext = ".mp4".
Proof.
  unfold is_video_file. split.
  - intros H. apply String.eqb_eq in H. unfold suffix in H.
    destruct (rfind_dot name) as [i|] eqn:Hi; [|discriminate H].
    destruct (Nat.ltb 0 i && Nat.ltb i (String.length name - 1))%nat eqn:Hc;
      [|discriminate H].
    apply andb_true_iff in Hc as [Hpos _]. apply Nat.ltb_lt in Hpos.
    destruct (rfind_dot_split name i Hi) as (stem & ext & Hn & Hl & Hs).
    exists stem, ext. rewrite Hs in H. split; [|auto].
    intros ->. cbn in Hl. lia.
  - intros (stem & ext & Hne & -> & Hl).
    rewrite (suffix_stem_ext stem ext Hl Hne), Hl. reflexivity.
Qed.

Lemma filter_sublist {A} (f : A -> bool) (l : list A) :
  List.filter f l `sublist_of` l.
Proof.
  induction l as [|x l IH]; cbn; [constructor|].
  destruct (f x); [now apply sublist_skip|now apply sublist_cons].
Qed.

(** X4.  The Corpus Scanner returns, in the order of the listing, exactly
    the names that are a non-empty stem followed by [.mp4] in any letter
    case: a name without a dot, a name that only starts with its dot
    ([.mp4]) and a name that ends in a dot are left out. *)
Theorem get_video_files_keeps (names : list string) :
  exists fs,
    get_video_files (Ok names) = Ok fs /\
    fs `sublist_of` names /\
    forall name, name ∈ fs <->
      name ∈ names /\
      exists stem ext,
        stem <> EmptyString /\ name = stem +:+ ext /\ lower ext = ".mp4".
Proof.
  eexists. split; [reflexivity|]. split; [apply filter_sublist|].
  intros name. rewrite <- is_video_file_iff, !list_elem_of_In.
  apply filter_In.
Qed.

(** ** The grouping *)

Lemma dict_get_dict_append (date d : datetime) (f : string) (grouped : buckets) :
  dict_get d (dict_append date f grouped)
  = if decide (date = d)
    then Some (from_option id [] (dict_get d grouped) ++ [f])
    else dict_get d grouped.
Proof.
  induction grouped as [|[k fs] rest IH]; cbn.
  - destruct (decide (date = d)); reflexivity.
  - destruct (decide (k = date)) as [->|Hk]; cbn.
    + destruct (decide (date = d)); reflexivity.
    + destruct (decide (k = d)) as [->|Hd].
      * rewrite decide_False by congruence. reflexivity.
      * exact IH.
Qed.

Lemma group_loop_lookup (video_files : list string) :
  forall grouped grouped' d,
    group_loop video_files grouped = Ok grouped' ->
    dict_get d grouped'
    = match dict_get d grouped, List.filter (has_date d) video_files with
      | None, [] => None
      | o, new => Some (from_option id [] o ++ new)
      end.
Proof.
  induction video_files as [|v rest IH]; intros grouped grouped' d H.
  - injection H as <-. cbn. destruct (dict_get d grouped); cbn;
      [now rewrite app_nil_r|reflexivity].
  - cbn [group_loop] in H. cbn [List.filter].
    destruct (parse_date_from_filename v) as [[date|]|e] eqn:Hp; cbn in H;
      [| |discriminate].
    + assert (Hh : has_date d v = bool_decide (date = d))
        by (unfold has_date; now rewrite Hp).
      rewrite Hh, (IH _ _ d H), dict_get_dict_append.
      destruct (decide (date = d)) as [->|Hne].
      * rewrite bool_decide_true by reflexivity.
        destruct (dict_get d grouped) as [fs|]; cbn;
          destruct (List.filter (has_date d) rest); cbn;
          rewrite <- ?app_assoc; reflexivity.
      * rewrite bool_decide_false by congruence. reflexivity.
    + assert (Hh : has_date d v = false)
        by (unfold has_date; now rewrite Hp).
      rewrite Hh. exact (IH _ _ d H).
Qed.

Lemma group_by_date_dict_get (video_files : list string) (grouped : buckets)
    (d : datetime) :
  group_by_date video_files = Ok grouped ->
  dict_get d grouped
  = match List.filter (has_date d) video_files with
    | [] => None
    | fs => Some fs
    end.
Proof.
  intros H. rewrite (group_loop_lookup video_files [] grouped d H). cbn.
  now destruct (List.filter (has_date d) video_files).
Qed.

Lemma group_loop_returns (video_files : list string) :
  forall grouped grouped', group_loop video_files grouped = Ok grouped' ->
    forall f, f ∈ video_files -> exists o, parse_date_from_filename f = Ok o.
Proof.
  induction video_files as [|v rest IH]; intros grouped grouped' H f Hf.
  - now apply elem_of_nil in Hf.
  - cbn [group_loop] in H.
    destruct (parse_date_from_filename v) as [o|e] eqn:Hp; [|discriminate].
    apply elem_of_cons in Hf as [->|Hf]; [eauto|].
    destruct o; cbn in H; eapply IH; eauto.
Qed.

(** X5.  When the grouping returns, its keys are pairwise distinct, the
    bucket of a date lists the files with that date in the order scanned,
    and a date no file has is no key: no bucket is empty. *)
Theorem group_by_date_lookup (video_files : list string) (grouped : buckets) :
  group_by_date video_files = Ok grouped ->
  NoDup (keys grouped) /\
  forall d,
    dict_get d grouped
    = match List.filter (has_date d) video_files with
      | [] => None
      | fs => Some fs
      end.
Proof.
  intros H. split; [apply (group_by_date_ok _ _ H)|].
  intros d. now apply group_by_date_dict_get.
Qed.

Lemma strptime_raises_value_error (g : string) (e : exn) :
  strptime g = Raise e -> e = ValueError.
Proof.
  unfold strptime.
  destruct (fmt_Ymd g) as [[[[y m] d] rest]|]; [|now intros [= <-]].
  destruct rest; [|now intros [= <-]].
  destruct (valid_date y m d); [discriminate|now intros [= <-]].
Qed.

Lemma parse_date_raises_value_error (f : string) (e : exn) :
  parse_date_from_filename f = Raise e -> e = ValueError.
Proof.
  unfold parse_date_from_filename.
  destruct (re_match_filename f) as [g|]; [|discriminate].
  destruct (strptime g) as [d|e'] eqn:Hs; cbn; [discriminate|].
  intros [= <-]. now apply (strptime_raises_value_error g).
Qed.

(** X6.  The grouping raises exactly when some scanned name has the shape
    of a dated name with digits that are no calendar date; it then raises
    [ValueError] and returns no bucket at all. *)
Theorem group_by_date_raises_iff (video_files : list string) (e : exn) :
  group_by_date video_files = Raise e <->
  e = ValueError /\
  exists f, f ∈ video_files /\ parse_date_from_filename f = Raise ValueError.
Proof.
  split.
  - intros H. apply group_loop_raises in H as (f & Hin & Hf).
    pose proof (parse_date_raises_value_error f e Hf) as ->.
    split; [reflexivity|]. now exists f.
  - intros (-> & f & Hin & Hf). unfold group_by_date.
    destruct (group_loop video_files []) as [grouped|e'] eqn:Hg.
    + destruct (group_loop_returns _ _ _ Hg f Hin) as [o Ho]. congruence.
    + apply group_loop_raises in Hg as (f' & _ & Hf').
      now rewrite (parse_date_raises_value_error f' e' Hf').
Qed.

(** ** The selection and the order of the dates *)

Lemma elem_of_keys_dict_get {V} (d : datetime) (g : list (datetime * V)) :
  d ∈ keys g <-> exists v, dict_get d g = Some v.
Proof.
  induction g as [|[k x] rest IH]; cbn.
  - split; [intros H; now apply elem_of_nil in H|intros [v Hv]; discriminate].
  - rewrite elem_of_cons. destruct (decide (k = d)) as [->|Hne].
    + split; [eauto|auto].
    + unfold keys in IH. rewrite IH. split; [intros [?|?]; congruence|auto].
Qed.

Lemma random_choice_elem (draw : nat) (videos : list string) :
  videos <> [] -> exists v, random_choice draw videos = Some v /\ v ∈ videos.
Proof.
  intros Hne. unfold random_choice.
  destruct (lookup_lt_is_Some_2 videos (draw mod length videos)%nat) as [v Hv].
  - apply Nat.mod_upper_bound. destruct videos; [contradiction|discriminate].
  - exists v. split; [exact Hv|]. eapply list_elem_of_lookup_2, Hv.
Qed.

Lemma select_loop_lookup (rand : nat -> nat) (grouped : buckets) :
  forall k,
    (forall d fs, dict_get d grouped = Some fs -> fs <> []) ->
    NoDup (keys grouped) ->
    keys (select_loop rand k grouped) = keys grouped /\
    forall d fs, dict_get d grouped = Some fs ->
      exists v, dict_get d (select_loop rand k grouped) = Some v /\ v ∈ fs.
Proof.
  induction grouped as [|[d0 fs0] rest IH]; intros k Hne Hnd.
  - split; [reflexivity|]. intros d fs H. discriminate.
  - cbn [keys List.map fst] in Hnd. apply NoDup_cons in Hnd as [Hd0 Hnd].
    assert (Hfs0 : fs0 <> []).
    { apply (Hne d0). cbn. now rewrite decide_True. }
    assert (Hrest : forall d fs, dict_get d rest = Some fs -> fs <> []).
    { intros d fs H. apply (Hne d). cbn.
      destruct (decide (d0 = d)) as [->|_]; [|exact H].
      destruct Hd0. apply elem_of_keys_dict_get. eauto. }
    cbn [select_loop].
    destruct (random_choice_elem (rand k) fs0 Hfs0) as (v0 & -> & Hv0).
    destruct (IH (S k) Hrest Hnd) as [Hk Hl]. split.
    + cbn. unfold keys in Hk. now rewrite Hk.
    + intros d fs. cbn. destruct (decide (d0 = d)) as [->|_].
      * intros [= <-]. eauto.
      * apply Hl.
Qed.

Lemma group_by_date_nonempty (video_files : list string) (grouped : buckets) :
  group_by_date video_files = Ok grouped ->
  forall d fs, dict_get d grouped = Some fs -> fs <> [].
Proof.
  intros Hg d fs H. rewrite (group_by_date_dict_get _ _ d Hg) in H.
  destruct (List.filter (has_date d) video_files); [discriminate|].
  injection H as <-. discriminate.
Qed.

Lemma select_one_per_day_keys (rand : nat -> nat)
    (video_files : list string) (grouped : buckets) :
  group_by_date video_files = Ok grouped ->
  keys (select_one_per_day rand grouped) = keys grouped.
Proof.
  intros Hg. destruct (group_by_date_ok _ _ Hg) as [Hnd _].
  apply (select_loop_lookup rand grouped O (group_by_date_nonempty _ _ Hg) Hnd).
Qed.

(** X7.  From the buckets of a grouping the selector takes, whatever the
    random draws, one file for every date, out of the bucket of that date;
    a bucket of one file gives that file. *)
Theorem select_one_per_day_picks (rand : nat -> nat)
    (video_files : list string) (grouped : buckets) :
  group_by_date video_files = Ok grouped ->
  keys (select_one_per_day rand grouped) = keys grouped /\
  forall d fs, dict_get d grouped = Some fs ->
    exists v,
      dict_get d (select_one_per_day rand grouped) = Some v /\
      v ∈ fs /\ (forall f, fs = [f] -> v = f).
Proof.
  intros Hg.
  destruct (group_by_date_ok _ _ Hg) as [Hnd _].
  destruct (select_loop_lookup rand grouped O
              (group_by_date_nonempty _ _ Hg) Hnd) as [Hk Hl].
  split; [exact Hk|].
  intros d fs H. destruct (Hl d fs H) as (v & Hv & Hin).
  exists v. split; [exact Hv|]. split; [exact Hin|].
  intros f ->. now apply list_elem_of_singleton in Hin.
Qed.

Lemma date_le_antisym : AntiSymm (=) date_le.
Proof. intros [] []. date_cases. Qed.

#[global] Existing Instance date_le_antisym.

Lemma has_date_keys (video_files : list string) (grouped : buckets)
    (d : datetime) :
  group_by_date video_files = Ok grouped ->
  d ∈ keys grouped <->
  exists f, f ∈ video_files /\ parse_date_from_filename f = Ok (Some d).
Proof.
  intros Hg. destruct (group_by_date_ok _ _ Hg) as [_ Hb].
  rewrite elem_of_keys_dict_get. split.
  - intros [fs Hfs].
    assert (Hne : fs <> []).
    { rewrite (group_by_date_dict_get _ _ d Hg) in Hfs.
      destruct (List.filter (has_date d) video_files); [discriminate|].
      injection Hfs as <-. discriminate. }
    destruct fs as [|f fs]; [contradiction|]. exists f. apply Hb.
    exists (f :: fs). split; [now apply dict_get_elem_of|].
    apply elem_of_cons; now left.
  - intros (f & Hin & Hp).
    destruct (proj2 (Hb d f) (conj Hin Hp)) as (fs & Hfs & _).
    apply elem_of_keys_dict_get. unfold keys.
    apply list_elem_of_fmap. now exists (d, fs).
Qed.

(** X8.  The dates a run processes, in their order, depend neither on the
    order in which the directory lists the files nor on the random draws:
    two listings with the same files give the same sorted dates. *)
Theorem sorted_dates_independent (files1 files2 : list string)
    (grouped1 grouped2 : buckets) (rand1 rand2 : nat -> nat) :
  files1 ≡ₚ files2 ->
  group_by_date files1 = Ok grouped1 ->
  group_by_date files2 = Ok grouped2 ->
  merge_sort date_le (keys (select_one_per_day rand1 grouped1))
  = merge_sort date_le (keys (select_one_per_day rand2 grouped2)).
Proof.
  intros Hperm H1 H2.
  rewrite (select_one_per_day_keys rand1 _ _ H1),
          (select_one_per_day_keys rand2 _ _ H2).
  apply (Sorted_unique date_le); try apply Sorted_merge_sort; try apply _.
  rewrite !merge_sort_Permutation.
  apply NoDup_Permutation;
    [apply (group_by_date_ok _ _ H1)|apply (group_by_date_ok _ _ H2)|].
  intros d. rewrite (has_date_keys _ _ d H1), (has_date_keys _ _ d H2).
  split; intros (f & Hin & Hp); exists f; (split; [|exact Hp]).
  - now rewrite <- Hperm.
  - now rewrite Hperm.
Qed.

(** ** The probes at their edges *)

Section ProbeEdges.

Variable json_loads : string -> result json.
Variable py_float : json -> result float.

(** X9.  The duration probe returns the duration it read or exactly 10.0,
    and lets no [CalledProcessError], [KeyError] or [ValueError] (nor a
    subclass of the latter) out: what it raises is what its body raised and
    its handler did not name. *)
Theorem get_video_duration_outcomes (run : completed) :
  match get_video_duration json_loads py_float run with
  | Ok d => duration_body json_loads py_float run = Ok d \/ d = f10_0
  | Raise e =>
      duration_body json_loads py_float run = Raise e /\
      e <> CalledProcessError /\ e <> KeyError /\ e <> ValueError /\
      e <> JSONDecodeError /\ e <> UnicodeEncodeError
  end.
Proof.
  unfold get_video_duration.
  destruct (duration_body json_loads py_float run) as [d|e]; [now left|].
  destruct (caught_by [CalledProcessError; KeyError; ValueError] e) eqn:Hc;
    [now right|].
  split; [reflexivity|].
  destruct e; try discriminate Hc; repeat split; discriminate.
Qed.

(** X10.  On every such probe the duration probe answers with its fallback
    of 10.0 seconds. *)
Theorem get_video_duration_fallback (run : completed) :
  unusable_probe json_loads py_float run ->
  get_video_duration json_loads py_float run = Ok f10_0.
Proof.
  unfold unusable_probe, get_video_duration, duration_body, mbind, result_bind.
  intros [->|(stdout & -> & [Hl|(d & Hl & Hd)])]; [reflexivity| |];
    rewrite Hl; [reflexivity|]. cbn [py_getitem].
  destruct Hd as [->|(f & -> & Hf)]; [reflexivity|]. cbn [py_getitem].
  destruct Hf as [->|(x & -> & Hx)]; [reflexivity|]. now rewrite Hx.
Qed.

(** X11.  A completed probe whose output is no JSON text, or whose
    document gives a duration that [float] rejects, makes the validator
    answer "invalid", whatever streams the document lists. *)
Theorem validate_clip_unusable_output (stdout : string) :
  json_loads stdout = Raise JSONDecodeError \/
  (exists d streams f x,
     json_loads stdout = Ok (JDict d) /\
     shown_streams d = Some streams /\
     assoc "format" d = Some (JDict f) /\
     assoc "duration" f = Some x /\
     py_float x = Raise ValueError) ->
  validate_clip json_loads py_float (Ok stdout) = Ok false.
Proof.
  intros [Hl|(d & streams & f & x & Hl & Hs & Hf & Hx & Hv)].
  - now apply validate_clip_malformed_text.
  - unfold validate_clip, validate_body, validate_data, mbind, result_bind.
    rewrite Hl. cbn [py_get].
    assert (Hd : probed_duration py_float (JDict d) = Raise ValueError).
    { unfold probed_duration, mbind, result_bind. cbn. rewrite Hf. cbn.
      rewrite Hx. cbn. now rewrite Hv. }
    unfold shown_streams in Hs.
    destruct (assoc "streams" d) as [v|]; cbn [from_option id].
    + destruct v as [| | | | |l|]; try discriminate.
      destruct (forallb is_dict l) eqn:Hall; [|discriminate].
      cbn [py_iter]. rewrite (streams_loop_dicts l Hall), Hd.
      reflexivity.
    + cbn [py_iter streams_loop]. rewrite Hd. reflexivity.
Qed.

(** X12.  Whatever exception the probe subprocess ends in, the validator
    ends in [UnboundLocalError]; after a completed probe it lets no
    [CalledProcessError], [KeyError] or [ValueError] (nor a subclass of the
    latter) out, and a document that is not an object makes it raise
    [AttributeError]. *)
Theorem validate_clip_raises (run : completed) (e : exn) :
  validate_clip json_loads py_float run = Raise e ->
  match run with
  | Raise _ => e = UnboundLocalError
  | Ok stdout =>
      validate_data json_loads py_float stdout = Raise e /\
      e <> CalledProcessError /\ e <> KeyError /\ e <> ValueError /\
      e <> JSONDecodeError /\ e <> UnicodeEncodeError /\
      forall v, json_loads stdout = Ok v -> is_dict v = false ->
                e = AttributeError
  end.
Proof.
  unfold validate_clip, validate_body. destruct run as [stdout|e0].
  - destruct (validate_data json_loads py_float stdout) as [b|e'] eqn:Hd;
      [discriminate|].
    destruct (caught_by _ e') eqn:Hc; [discriminate|]. intros [= <-].
    split; [reflexivity|].
    repeat (split; [destruct e'; try discriminate Hc; discriminate|]).
    intros v Hl Hv. unfold validate_data, mbind, result_bind in Hd.
    rewrite Hl in Hd. destruct v; try discriminate Hv; cbn in Hd; congruence.
  - now intros [= <-].
Qed.

End ProbeEdges.

(** ** The Concatenator *)

Section Concatenator.

Variable w : world.

(** The three ways through [concatenate_videos]. *)
Lemma concatenate_videos_cases (clip_paths : list string)
    (output_path : string) (s : state) :
  concatenate_videos w clip_paths output_path s
  = match named_temporary_file w with
    | Raise e =>
        ({| files := files s;
            trace := trace s ++ [Call_concatenate clip_paths output_path] |},
         Raise e)
    | Ok name =>
        match write_text w name (manifest_text clip_paths) with
        | Raise e =>
            ({| files := <[name := EmptyString]> (files s);
                trace := trace s ++ [Call_concatenate clip_paths output_path] |},
             Raise e)
        | Ok _ =>
            ({| files := delete name (files s);
                trace := trace s ++ [Call_concatenate clip_paths output_path;
                                     Ffmpeg_concat name output_path] |},
             match ffmpeg_concat w name output_path with
             | Ok _ => Ok true
             | Raise e =>
                 if isinstance e CalledProcessError then Ok false else Raise e
             end)
        end
    end.
Proof.
  unfold concatenate_videos, create_concat_file, try_finally, try_except,
    unlink, create_file, mbind, io_bind, mret, io_ret, emit, lift; cbn.
  destruct (named_temporary_file w) as [name|e]; cbn; [|reflexivity].
  destruct (write_text w name (manifest_text clip_paths)) as [[]|e]; cbn;
    [|reflexivity].
  destruct (ffmpeg_concat w name output_path) as [o|e]; cbn.
  - rewrite lookup_insert_eq; cbn.
    now rewrite insert_insert_eq, delete_insert_eq, <- app_assoc.
  - destruct (isinstance e CalledProcessError); cbn;
      rewrite ?lookup_insert_eq; cbn;
      now rewrite insert_insert_eq, delete_insert_eq, <- app_assoc.
Qed.


(** X14.  When the Concatenator returns, it has created and written its
    manifest, started [ffmpeg] once, on that manifest and the output path,
    and removed the manifest; it returns [True] exactly when [ffmpeg]
    exited with status zero. *)
Theorem concatenate_videos_returns (clip_paths : list string)
    (output_path : string) (s s' : state) (b : bool) :
  concatenate_videos w clip_paths output_path s = (s', Ok b) ->
  exists name,
    named_temporary_file w = Ok name /\
    write_text w name (manifest_text clip_paths) = Ok tt /\
    files s' = delete name (files s) /\
    trace s' = trace s ++ [Call_concatenate clip_paths output_path;
                           Ffmpeg_concat name output_path] /\
    (b = true <-> exists o, ffmpeg_concat w name output_path = Ok o) /\
    (b = false <->
     exists e, ffmpeg_concat w name output_path = Raise e /\
               isinstance e CalledProcessError = true).
Proof.
  rewrite concatenate_videos_cases.
  destruct (named_temporary_file w) as [name|e]; [|discriminate].
  destruct (write_text w name (manifest_text clip_paths)) as [[]|e] eqn:Hw;
    [|discriminate].
  intros H. exists name.
  split; [reflexivity|]. split; [exact Hw|].
  destruct (ffmpeg_concat w name output_path) as [o|e].
  - injection H as <- <-. cbn. repeat split; eauto; try discriminate.
    intros (e & He & _). discriminate.
  - destruct (isinstance e CalledProcessError) eqn:Hi; [|discriminate].
    injection H as <- <-. cbn. repeat split; eauto; try discriminate.
    intros (o & Ho). discriminate.
Qed.

End Concatenator.

(** ** The loop, day by day *)

Section DayByDay.

Variable json_loads : string -> result json.
Variable py_float : json -> result float.
Variable clip_path : nat -> datetime -> string.
Variable w : world.
Variable selected_videos : list (datetime * string).

Local Abbreviation day_outcome :=
  (day_outcome json_loads py_float clip_path w selected_videos).
Local Abbreviation day_request :=
  (day_request json_loads py_float clip_path w selected_videos).
Local Abbreviation survives :=
  (survives json_loads py_float clip_path w selected_videos).
Local Abbreviation render := (fun p : nat * datetime => clip_path (fst p) (snd p)).
Local Abbreviation loop := (extract_loop json_loads py_float clip_path w selected_videos).

Lemma extract_clip_outcome (input output : string) (duration : float)
    (start_time : Z) (s : state) :
  extract_clip w input output (Some duration) (Some start_time) s
  = ({| files := files s;
        trace := trace s ++ [Ffmpeg_extract input output duration start_time] |},
     match ffmpeg_extract w input output duration start_time with
     | Ok _ => Ok true
     | Raise e => if isinstance e CalledProcessError then Ok false else Raise e
     end).
Proof.
  unfold extract_clip, try_except, mbind, io_bind, emit, lift; cbn.
  destruct (ffmpeg_extract w input output duration start_time) as [o|e]; cbn;
    [reflexivity|].
  now destruct (isinstance e CalledProcessError).
Qed.

(** A day that lets no exception out is one step of the loop. *)
Lemma extract_loop_step (i : nat) (date : datetime) (rest : list datetime)
    (clip_paths : list string) (s : state) (request : event) (valid : bool) :
  day_outcome (i, date) = Some (request, valid) ->
  loop i (date :: rest) clip_paths s
  = loop (S i) rest
      (if valid then clip_paths ++ [clip_path i date] else clip_paths)
      {| files := files s; trace := trace s ++ [request] |}.
Proof.
  unfold day_outcome. cbn [fst snd extract_loop].
  unfold mbind, io_bind. unfold lift at 1.
  destruct (dict_get date selected_videos) as [video|]; [|discriminate].
  unfold lift at 1.
  destruct (get_video_duration json_loads py_float (ffprobe_format w video))
    as [d|e]; [|discriminate].
  rewrite extract_clip_outcome.
  destruct (ffmpeg_extract w video (clip_path i date) (py_min clip_duration d) 0)
    as [o|e].
  - unfold lift at 1.
    destruct (validate_clip json_loads py_float
                (ffprobe_streams w (clip_path i date))) as [b|e];
      [|discriminate].
    intros [= <- <-]. now destruct b.
  - destruct (isinstance e CalledProcessError); [|discriminate].
    now intros [= <- <-].
Qed.

(** A loop that returns has met no exception on any day. *)
Lemma extract_loop_returns (dates : list datetime) :
  forall i clip_paths s s' paths,
    loop i dates clip_paths s = (s', Ok paths) ->
    Forall (fun p => is_Some (day_outcome p)) (enumerate i dates).
Proof.
  induction dates as [|date rest IH]; intros i clip_paths s s' paths H;
    [constructor|].
  cbn [enumerate].
  assert (Hd : is_Some (day_outcome (i, date)) /\
               exists acc s1, loop (S i) rest acc s1 = (s', Ok paths)).
  { revert H. unfold day_outcome. cbn [fst snd extract_loop].
    unfold mbind, io_bind. unfold lift at 1.
    destruct (dict_get date selected_videos) as [video|]; [|discriminate].
    unfold lift at 1.
    destruct (get_video_duration json_loads py_float (ffprobe_format w video))
      as [d|e]; [|discriminate].
    rewrite extract_clip_outcome.
    destruct (ffmpeg_extract w video (clip_path i date)
                (py_min clip_duration d) 0) as [o|e].
    - unfold lift at 1.
      destruct (validate_clip json_loads py_float
                  (ffprobe_streams w (clip_path i date))) as [b|e];
        [|discriminate].
      intros H. split; [eauto|]. destruct b; eauto.
    - destruct (isinstance e CalledProcessError); [|discriminate].
      intros H. split; eauto. }
  destruct Hd as [Hd (acc & s1 & Hloop)].
  constructor; [exact Hd|]. eapply IH, Hloop.
Qed.

Lemma extract_loop_days (dates : list datetime) :
  forall i clip_paths s,
    Forall (fun p => is_Some (day_outcome p)) (enumerate i dates) ->
    loop i dates clip_paths s
    = ({| files := files s;
          trace := trace s ++ omap day_request (enumerate i dates) |},
       Ok (clip_paths
           ++ List.map render (List.filter survives (enumerate i dates)))).
Proof.
  induction dates as [|date rest IH]; intros i clip_paths s Hall.
  - cbn. rewrite !app_nil_r. now destruct s.
  - cbn [enumerate] in *. apply Forall_cons in Hall as [[[ev b] Hd] Hall].
    rewrite (extract_loop_step i date rest clip_paths s ev b Hd).
    rewrite (IH _ _ _ Hall). cbn [files trace omap list_omap List.filter].
    change (day_request (i, date)) with (fst <$> day_outcome (i, date)).
    change (survives (i, date))
      with (match day_outcome (i, date) with
            | Some (_, true) => true
            | _ => false
            end).
    rewrite Hd. cbn [fmap option_fmap option_map fst]. rewrite <- app_assoc.
    destruct b; cbn [List.map app fst snd]; rewrite <- ?app_assoc;
      reflexivity.
Qed.

(** X17.  When no call lets an exception out, the loop handles the days one
    by one and independently: it makes one extraction request per date, in
    the order of the dates, and returns the clips of the days that
    survive, numbered by the position of their date; a day whose extraction
    or validation fails is left out and changes nothing for the others. *)
Theorem extract_loop_day_by_day (dates : list datetime) (i : nat)
    (clip_paths : list string) (s : state) :
  Forall (fun p => is_Some (day_outcome p)) (enumerate i dates) ->
  loop i dates clip_paths s
  = ({| files := files s;
        trace := trace s ++ omap day_request (enumerate i dates) |},
     Ok (clip_paths
         ++ List.map render (List.filter survives (enumerate i dates)))) /\
  length (omap day_request (enumerate i dates)) = length dates.
Proof.
  intros Hall. split; [now apply extract_loop_days|].
  clear clip_paths s. revert i Hall.
  induction dates as [|date rest IH]; intros i Hall; [reflexivity|].
  cbn [enumerate] in *. apply Forall_cons in Hall as [[[ev b] Hd] Hall].
  cbn [omap list_omap].
  change (day_request (i, date)) with (fst <$> day_outcome (i, date)).
  rewrite Hd. cbn [fmap option_fmap option_map fst length]. now rewrite IH.
Qed.

Lemma enumerate_app {A} (l k : list A) :
  forall i, enumerate i (l ++ k) = enumerate i l ++ enumerate (i + length l) k.
Proof.
  induction l as [|x l IH]; intros i; cbn.
  - now rewrite Nat.add_0_r.
  - rewrite IH. now rewrite Nat.add_succ_r.
Qed.

(** X19.  A clip whose probe subprocess fails ends the loop with
    [UnboundLocalError]: the days before it were handled, its own
    extraction was requested, and no later date is processed. *)
Theorem extract_loop_aborts_on_failed_probe (before after : list datetime)
    (date : datetime) (video_path : string) (d : float) (o : string)
    (e : exn) (i : nat) (clip_paths : list string) (s : state) :
  let clip := clip_path (i + length before) date in
  let request := Ffmpeg_extract video_path clip (py_min clip_duration d) 0 in
  Forall (fun p => is_Some (day_outcome p)) (enumerate i before) ->
  dict_get date selected_videos = Some video_path ->
  get_video_duration json_loads py_float (ffprobe_format w video_path) = Ok d ->
  ffmpeg_extract w video_path clip (py_min clip_duration d) 0 = Ok o ->
  ffprobe_streams w clip = Raise e ->
  loop i (before ++ date :: after) clip_paths s
  = ({| files := files s;
        trace := trace s ++ omap day_request (enumerate i before) ++ [request] |},
     Raise UnboundLocalError).
Proof.
  cbv zeta. revert i clip_paths s.
  induction before as [|b0 before IH]; intros i clip_paths s Hall Hsel Hdur Hx Hp.
  - cbn [app length enumerate omap] in *. rewrite Nat.add_0_r in *.
    cbn [extract_loop]. unfold mbind, io_bind. unfold lift at 1.
    rewrite Hsel. unfold lift at 1. rewrite Hdur.
    rewrite extract_clip_outcome, Hx. unfold lift at 1. rewrite Hp.
    reflexivity.
  - cbn [app length enumerate] in *.
    apply Forall_cons in Hall as [[[ev b] Hd] Hall].
    rewrite (extract_loop_step i b0 _ clip_paths s ev b Hd).
    rewrite Nat.add_succ_r in Hx, Hp.
    rewrite (IH (S i) _ _ Hall Hsel Hdur Hx Hp).
    cbn [files trace omap list_omap].
    change (day_request (i, b0)) with (fst <$> day_outcome (i, b0)).
    rewrite Hd. cbn [fmap option_fmap option_map fst].
    rewrite Nat.add_succ_r, <- app_assoc. reflexivity.
Qed.

End DayByDay.

(** ** Whole runs *)

Section WholeRuns.

Variable json_loads : string -> result json.
Variable py_float : json -> result float.
Variable clip_path : nat -> datetime -> string.
Variable w : world.

Local Abbreviation render := (fun p : nat * datetime => clip_path (fst p) (snd p)).
Local Abbreviation main' := (main json_loads py_float clip_path w).

Lemma preflight_cases (s : state) : preflight w s = (s, tools_outcome w).
Proof.
  unfold preflight, tools_outcome, try_except, mbind, io_bind, lift, mret, io_ret.
  destruct (ffmpeg_version w) as [o1|e1]; cbn.
  - destruct (ffprobe_version w) as [o2|e2]; cbn; [reflexivity|].
    now destruct (_ || _).
  - now destruct (_ || _).
Qed.

(** The ways through [main]. *)
Lemma main_cases (s : state) :
  main' s
  = match tools_outcome w with
    | Raise e => (s, Raise e)
    | Ok false => (s, Ok Missing_tools)
    | Ok true =>
        match get_video_files (iterdir w) with
        | Raise e => (s, Raise e)
        | Ok [] => (s, Ok No_video_files)
        | Ok (v :: vs) =>
            match group_by_date (v :: vs) with
            | Raise e => (s, Raise e)
            | Ok grouped =>
                let selected := select_one_per_day (rand w) grouped in
                match extract_loop json_loads py_float clip_path w selected O
                        (merge_sort date_le (keys selected)) [] s with
                | (s1, Raise e) => (s1, Raise e)
                | (s1, Ok []) => (s1, Ok No_clips)
                | (s1, Ok (p :: ps)) =>
                    match concatenate_videos w (p :: ps) output_file s1 with
                    | (s2, Ok true) => (s2, Ok (Compiled (length (p :: ps))))
                    | (s2, Ok false) => (s2, Ok Concat_failed)
                    | (s2, Raise e) => (s2, Raise e)
                    end
                end
            end
        end
    end.
Proof.
  unfold main, mbind, io_bind, mret, io_ret. rewrite preflight_cases.
  destruct (tools_outcome w) as [[|]|e]; cbn [negb]; try reflexivity.
  unfold lift.
  destruct (get_video_files (iterdir w)) as [[|v vs]|e]; try reflexivity.
  destruct (group_by_date (v :: vs)) as [grouped|e]; try reflexivity.
  cbv zeta. unfold keys.
  destruct (extract_loop _ _ _ _ _ _ _ _ s) as [s1 [[|p ps]|e]];
    try reflexivity.
  destruct (concatenate_videos w (p :: ps) output_file s1) as [s2 [[|]|e]];
    reflexivity.
Qed.

Ltac main_branches H :=
  rewrite main_cases in H;
  destruct (tools_outcome w) as [[|]|?] eqn:Htools; try discriminate H;
  try (match type of H with
       | context [get_video_files ?x] =>
           destruct (get_video_files x) as [[|? ?]|?] eqn:Hfiles
       end; try discriminate H;
  try (match type of H with
       | context [group_by_date ?l] =>
           destruct (group_by_date l) as [grouped|?] eqn:Hgroup
       end; try discriminate H;
  try (cbv zeta in H;
       match type of H with
       | context [extract_loop ?a ?b ?c ?d ?e ?f ?g ?h ?i] =>
           destruct (extract_loop a b c d e f g h i)
             as [st1 [[|? ?]|?]] eqn:Hloop
       end; try discriminate H;
  try (match type of H with
       | context [concatenate_videos ?a ?l ?o ?s] =>
           destruct (concatenate_videos a l o s) as [st2 [[|]|?]] eqn:Hcat
       end; try discriminate H)))).

(** X15.  [main] ends with the message that the tools are missing exactly
    when asking [ffmpeg], or then [ffprobe], for its version ends in
    [CalledProcessError] or [FileNotFoundError]; nothing else has been
    done by then. *)
Theorem main_missing_tools_iff (s s' : state) :
  main' s = (s', Ok Missing_tools) <->
  s' = s /\
  exists e, caught_by [CalledProcessError; FileNotFoundError] e = true /\
    (ffmpeg_version w = Raise e \/
     (exists o, ffmpeg_version w = Ok o) /\ ffprobe_version w = Raise e).
Proof.
  split.
  - intros H. main_branches H. injection H as <-. split; [reflexivity|].
    unfold tools_outcome in Htools.
    destruct (ffmpeg_version w) as [o|e] eqn:H1.
    + destruct (ffprobe_version w) as [o'|e] eqn:H2; [discriminate|].
      destruct (caught_by _ e) eqn:Hc; [|discriminate].
      exists e. split; [exact Hc|]. right. split; [now exists o|reflexivity].
    + destruct (caught_by _ e) eqn:Hc; [|discriminate].
      exists e. split; [exact Hc|]. now left.
  - intros (-> & e & Hc & He). rewrite main_cases.
    assert (Ht : tools_outcome w = Ok false).
    { unfold tools_outcome. destruct He as [->|[[o ->] ->]]; now rewrite Hc. }
    now rewrite Ht.
Qed.

Lemma filter_nil_iff {A} (f : A -> bool) (l : list A) :
  List.filter f l = [] <-> Forall (fun x => f x = false) l.
Proof.
  induction l as [|x l IH]; cbn; [split; [constructor|reflexivity]|].
  destruct (f x) eqn:Hx.
  - split; [discriminate|]. intros H. apply Forall_cons in H as [? _]. congruence.
  - rewrite IH. split; [now constructor|]. intros H. now apply Forall_cons in H.
Qed.

(** X16.  [main] ends with the message that no video file was found
    exactly when both tools answer and the directory listing holds no name
    the scanner keeps; nothing else has been done by then. *)
Theorem main_no_video_files_iff (s s' : state) :
  main' s = (s', Ok No_video_files) <->
  s' = s /\
  tools_outcome w = Ok true /\
  exists names, iterdir w = Ok names /\
    Forall (fun name => is_video_file name = false) names.
Proof.
  split.
  - intros H. main_branches H. injection H as <-. split; [reflexivity|].
    split; [reflexivity|].
    unfold get_video_files, mbind, result_bind in Hfiles.
    destruct (iterdir w) as [names|e]; [|discriminate].
    injection Hfiles as Hf. exists names. split; [reflexivity|].
    now apply filter_nil_iff.
  - intros (-> & Ht & names & Hn & Hall). rewrite main_cases, Ht.
    unfold get_video_files, mbind, result_bind. rewrite Hn.
    now rewrite (proj2 (filter_nil_iff is_video_file names) Hall).
Qed.

Lemma extract_loop_files (selected : list (datetime * string))
    (dates : list datetime) (i : nat) (acc : list string) (s s1 : state)
    (r : result (list string)) :
  extract_loop json_loads py_float clip_path w selected i dates acc s = (s1, r) ->
  files s1 = files s.
Proof. intros H. now apply extract_loop_spec in H. Qed.

(** X18.  Every run of [main] that ends without an exception leaves no
    manifest behind, whatever its status. *)
Theorem main_leaves_no_manifest (s' : state) (st : status) :
  main' initial = (s', Ok st) -> files s' = ∅.
Proof.
  intros H. main_branches H; try (injection H as <- _; reflexivity).
  - injection H as <- _. now apply extract_loop_files in Hloop.
  - injection H as <- _. apply extract_loop_files in Hloop.
    rewrite concatenate_videos_cases in Hcat.
    destruct (named_temporary_file w) as [name|e]; [|discriminate].
    destruct (write_text w name _) as [[]|e]; [|discriminate].
    injection Hcat as <- _. cbn. rewrite Hloop. apply delete_empty.
  - injection H as <- _. apply extract_loop_files in Hloop.
    rewrite concatenate_videos_cases in Hcat.
    destruct (named_temporary_file w) as [name|e]; [|discriminate].
    destruct (write_text w name _) as [[]|e]; [|discriminate].
    injection Hcat as <- _. cbn. rewrite Hloop. apply delete_empty.
Qed.

Lemma length_enumerate {A} (l : list A) :
  forall i, length (enumerate i l) = length l.
Proof. induction l as [|x l IH]; intros i; cbn; [reflexivity|now rewrite IH]. Qed.

Lemma length_filter_le {A} (f : A -> bool) (l : list A) :
  (length (List.filter f l) <= length l)%nat.
Proof.
  induction l as [|x l IH]; cbn; [lia|]. destruct (f x); cbn; lia.
Qed.

(** X20.  A run that reports a compiled video made one extraction request
    per date of the corpus, in ascending order of the dates, then called
    the Concatenator once, on the clips of exactly the days that survived,
    which started [ffmpeg] once on its manifest; the count it reports is
    the number of those clips, at least one and at most the number of
    dates, and no manifest is left. *)
Theorem main_compiled_run (s' : state) (n : nat) :
  main' initial = (s', Ok (Compiled n)) ->
  exists video_files grouped name,
    get_video_files (iterdir w) = Ok video_files /\
    group_by_date video_files = Ok grouped /\
    named_temporary_file w = Ok name /\
    let selected := select_one_per_day (rand w) grouped in
    let days := enumerate O (merge_sort date_le (keys selected)) in
    let paths :=
      List.map render
        (List.filter (survives json_loads py_float clip_path w selected) days) in
    n = length paths /\
    (1 <= n <= length (keys grouped))%nat /\
    trace s'
    = omap (day_request json_loads py_float clip_path w selected) days
      ++ [Call_concatenate paths output_file; Ffmpeg_concat name output_file] /\
    files s' = ∅.
Proof.
  intros H. main_branches H. injection H as <- <-.
  pose proof (extract_loop_returns _ _ _ _ _ _ _ _ _ _ _ Hloop) as Hall.
  rewrite (extract_loop_days _ _ _ _ _ _ _ _ _ Hall) in Hloop.
  injection Hloop as <- Hpaths. cbn [app] in Hpaths.
  rewrite concatenate_videos_cases in Hcat.
  destruct (named_temporary_file w) as [name|e]; [|discriminate].
  destruct (write_text w name _) as [[]|e]; [|discriminate].
  injection Hcat as <- _.
  eexists _, grouped, name.
  split; [reflexivity|]. split; [exact Hgroup|]. split; [reflexivity|].
  cbv zeta. rewrite Hpaths. split; [reflexivity|]. split; [|split].
  - split; [cbn; lia|].
    change (S (length l0)) with (length (s0 :: l0)).
    rewrite <- Hpaths, length_map.
    etransitivity; [apply length_filter_le|].
    rewrite length_enumerate, merge_sort_Permutation.
    now rewrite (select_one_per_day_keys (rand w) _ _ Hgroup).
  - reflexivity.
  - cbn. apply delete_empty.
Qed.

End WholeRuns.

(** ** The further properties in the sample environments *)

Lemma group_by_date_lookup_witness :
  NoDup (keys sample_grouped) /\
  forall d,
    dict_get d sample_grouped
    = match List.filter (has_date d) sample_files with
      | [] => None
      | fs => Some fs
      end.
Proof. apply (group_by_date_lookup sample_files sample_grouped). reflexivity. Defined.

Lemma select_one_per_day_picks_witness :
  keys (select_one_per_day (fun _ => 1%nat) sample_grouped) = keys sample_grouped /\
  forall d fs, dict_get d sample_grouped = Some fs ->
    exists v,
      dict_get d (select_one_per_day (fun _ => 1%nat) sample_grouped) = Some v /\
      v ∈ fs /\ (forall f, fs = [f] -> v = f).
Proof.
  apply (select_one_per_day_picks (fun _ => 1%nat) sample_files sample_grouped).
  reflexivity.
Defined.

Lemma sorted_dates_independent_witness :
  merge_sort date_le (keys (select_one_per_day (fun _ => 0%nat) sample_grouped))
  = merge_sort date_le
      (keys (select_one_per_day (fun _ => 1%nat)
               [(mkdate 2024 1 1, ["2024-01-01_a-main.mp4"; "2024-01-01_b-main.mp4"]);
                (mkdate 2024 1 3, ["2024-01-03_c-main.mp4"])])).
Proof.
  apply (sorted_dates_independent sample_files
           ["2024-01-01_a-main.mp4"; "2024-01-01_b-main.mp4"; "2024-01-03_c-main.mp4"]).
  - exact (Permutation_app_comm ["2024-01-03_c-main.mp4"]
             ["2024-01-01_a-main.mp4"; "2024-01-01_b-main.mp4"]).
  - reflexivity.
  - reflexivity.
Defined.

Lemma get_video_duration_fallback_witness :
  get_video_duration sample_loads sample_float (Ok "garbage") = Ok f10_0.
Proof.
  apply (get_video_duration_fallback sample_loads sample_float (Ok "garbage")).
  right. exists "garbage". split; [reflexivity|]. left. reflexivity.
Defined.

Lemma validate_clip_unusable_output_witness :
  validate_clip sample_loads sample_float (Ok "garbage") = Ok false.
Proof.
  apply (validate_clip_unusable_output sample_loads sample_float "garbage").
  left. reflexivity.
Defined.

Lemma validate_clip_raises_witness :
  validate_clip sample_loads sample_float (Raise FileNotFoundError)
  = Raise UnboundLocalError /\
  UnboundLocalError = UnboundLocalError.
Proof.
  split; [reflexivity|].
  apply (validate_clip_raises sample_loads sample_float
           (Raise FileNotFoundError) UnboundLocalError).
  reflexivity.
Defined.


Lemma concatenate_videos_returns_witness :
  let clip_paths := ["/tmp/run/clip_0000_20240101.mp4"] in
  let s' := fst (concatenate_videos sample_world clip_paths output_file initial) in
  exists name,
    named_temporary_file sample_world = Ok name /\
    write_text sample_world name (manifest_text clip_paths) = Ok tt /\
    files s' = delete name (files initial) /\
    trace s' = trace initial ++ [Call_concatenate clip_paths output_file;
                                 Ffmpeg_concat name output_file] /\
    (true = true <-> exists o, ffmpeg_concat sample_world name output_file = Ok o) /\
    (true = false <->
     exists e, ffmpeg_concat sample_world name output_file = Raise e /\
               isinstance e CalledProcessError = true).
Proof.
  cbv zeta.
  apply (concatenate_videos_returns sample_world
           ["/tmp/run/clip_0000_20240101.mp4"] output_file initial).
  vm_compute. reflexivity.
Defined.

Lemma extract_loop_day_by_day_witness :
  extract_loop sample_loads sample_float sample_clip_path
    second_day_fails_world sample_selected 0 sample_dates [] initial
  = ({| files := files initial;
        trace := trace initial
                 ++ omap (day_request sample_loads sample_float sample_clip_path
                            second_day_fails_world sample_selected)
                      (enumerate 0 sample_dates) |},
     Ok ([] ++ List.map (fun p => sample_clip_path (fst p) (snd p))
                 (List.filter
                    (survives sample_loads sample_float sample_clip_path
                       second_day_fails_world sample_selected)
                    (enumerate 0 sample_dates)))) /\
  length (omap (day_request sample_loads sample_float sample_clip_path
                  second_day_fails_world sample_selected)
            (enumerate 0 sample_dates))
  = length sample_dates.
Proof.
  apply (extract_loop_day_by_day sample_loads sample_float sample_clip_path
           second_day_fails_world sample_selected sample_dates 0 [] initial).
  repeat constructor; vm_compute; eexists; reflexivity.
Defined.

(** In that environment the second day is skipped and the first still
    gives its clip. *)
Example second_day_fails_run :
  snd (extract_loop sample_loads sample_float sample_clip_path
         second_day_fails_world sample_selected 0 sample_dates [] initial)
  = Ok ["/tmp/run/clip_0000_20240101.mp4"] /\
  snd (run_main second_day_fails_world) = Ok (Compiled 1).
Proof. split; vm_compute; reflexivity. Qed.

Lemma main_leaves_no_manifest_witness :
  files (fst (run_main sample_world)) = ∅.
Proof.
  apply (main_leaves_no_manifest sample_loads sample_float sample_clip_path
           sample_world (fst (run_main sample_world)) (Compiled 2)).
  vm_compute. reflexivity.
Defined.

Lemma extract_loop_aborts_on_failed_probe_witness :
  extract_loop sample_loads sample_float sample_clip_path
    failed_clip_probe_world sample_selected 0
    ([] ++ mkdate 2024 1 1 :: [mkdate 2024 1 3]) [] initial
  = ({| files := files initial;
        trace := trace initial
                 ++ omap (day_request sample_loads sample_float sample_clip_path
                            failed_clip_probe_world sample_selected)
                      (enumerate 0 [])
                 ++ [Ffmpeg_extract "2024-01-01_b-main.mp4"
                       (sample_clip_path (0 + length (@nil datetime))
                          (mkdate 2024 1 1))
                       (py_min clip_duration f10_0) 0] |},
     Raise UnboundLocalError).
Proof.
  apply (extract_loop_aborts_on_failed_probe sample_loads sample_float
           sample_clip_path failed_clip_probe_world sample_selected
           [] [mkdate 2024 1 3] (mkdate 2024 1 1) "2024-01-01_b-main.mp4"
           f10_0 EmptyString CalledProcessError 0 [] initial).
  - constructor.
  - reflexivity.
  - reflexivity.
  - reflexivity.
  - reflexivity.
Defined.

(** In that environment the whole run ends in the exception. *)
Example failed_clip_probe_run :
  snd (run_main failed_clip_probe_world) = Raise UnboundLocalError /\
  trace (fst (run_main failed_clip_probe_world))
  = [Ffmpeg_extract "2024-01-01_b-main.mp4" "/tmp/run/clip_0000_20240101.mp4"
       f1_4 0].
Proof. split; vm_compute; reflexivity. Qed.

Lemma main_compiled_run_witness :
  exists video_files grouped name,
    get_video_files (iterdir sample_world) = Ok video_files /\
    group_by_date video_files = Ok grouped /\
    named_temporary_file sample_world = Ok name /\
    let selected := select_one_per_day (rand sample_world) grouped in
    let days := enumerate O (merge_sort date_le (keys selected)) in
    let paths :=
      List.map (fun p => sample_clip_path (fst p) (snd p))
        (List.filter
           (survives sample_loads sample_float sample_clip_path sample_world
              selected) days) in
    2%nat = length paths /\
    (1 <= 2 <= length (keys grouped))%nat /\
    trace (fst (run_main sample_world))
    = omap (day_request sample_loads sample_float sample_clip_path sample_world
              selected) days
      ++ [Call_concatenate paths output_file; Ffmpeg_concat name output_file] /\
    files (fst (run_main sample_world)) = ∅.
Proof.
  apply (main_compiled_run sample_loads sample_float sample_clip_path
           sample_world (fst (run_main sample_world)) 2).
  vm_compute. reflexivity.
Defined.
